(** * combine_taxonomy: consensus of two taxonomic identifications

    A shallow embedding of [combine_taxonomy.py] (functions
    [get_taxonomy_level], [find_common_level], [get_best_identification]
    and the row loop of [main]) together with the properties its
    specification states about them.

    A row is the dict that [Series.to_dict()] gives: column name to cell.
    Key order plays no part in any function below, so a row is a
    [gmap string value]. *)

From Stdlib Require Import ZArith.
From stdpp Require Import base tactics option list strings gmap fin_maps.

Local Open Scope string_scope.

(** ** Python values and the operations the script applies to them *)

(** A cell of a table read by [pandas.read_csv]: an empty cell is the
    float NaN, text is a [str], a numeric column gives numbers.  The
    script never builds a cell holding [None]; [None] only occurs as the
    "nothing found" result of [find_common_level] and is [None] of
    [option] there. *)
Inductive value : Type :=
  | VNaN
  | VStr (s : string)
  | VNum (n : Z).

Inductive exn : Type :=
  | AttributeError   (* [.lower()] on a value that is not a [str] *)
  | KeyError         (* [row[key]] on a missing key *)
  | ValueError       (* [list.index] of an element not in the list *)
  | IndexError.      (* [list[i]] out of range *)

Inductive res (A : Type) : Type :=
  | Ok (a : A)
  | Raise (e : exn).
Arguments Ok {A} a.
Arguments Raise {A} e.

#[global] Instance res_ret : MRet res := fun _ a => Ok a.
#[global] Instance res_bind : MBind res := fun _ _ f m =>
  match m with
  | Ok a => f a
  | Raise e => Raise e
  end.

#[global] Instance res_fmap : FMap res := fun _ _ f m =>
  match m with
  | Ok a => Ok (f a)
  | Raise e => Raise e
  end.

Abbreviation row := (gmap string value).

(** [bool(v)] *)
Definition truthy (v : value) : bool :=
  match v with
  | VNaN => true
  | VStr s => negb (String.eqb s "")
  | VNum n => negb (n =? 0)%Z
  end.

(** [pd.notna(v)] and [pd.isna(v)] *)
Definition notna (v : value) : bool :=
  match v with
  | VNaN => false
  | _ => true
  end.

Definition isna (v : value) : bool := negb (notna v).

(** [a == b]; NaN equals nothing, itself included. *)
Definition py_eq (a b : value) : bool :=
  match a, b with
  | VStr s, VStr t => String.eqb s t
  | VNum n, VNum k => (n =? k)%Z
  | _, _ => false
  end.

(** [a != b] *)
Definition py_ne (a b : value) : bool := negb (py_eq a b).

(** [a != b] where either side may be [None]. *)
Definition py_ne_opt (a b : option value) : bool :=
  match a, b with
  | None, None => false
  | Some x, Some y => py_ne x y
  | _, _ => true
  end.

(** [str.lower] on one character and on a string.  Strings are modelled
    as ASCII text, on which [lower] maps [A]..[Z] to [a]..[z]. *)
Definition lower_ascii (c : Ascii.ascii) : Ascii.ascii :=
  let n := Ascii.nat_of_ascii c in
  if (65 <=? n)%nat && (n <=? 90)%nat then Ascii.ascii_of_nat (n + 32) else c.

Fixpoint lower_string (s : string) : string :=
  match s with
  | EmptyString => EmptyString
  | String c rest => String (lower_ascii c) (lower_string rest)
  end.

(** [v.lower()]: only a [str] has the method. *)
Definition lower (v : value) : res string :=
  match v with
  | VStr s => Ok (lower_string s)
  | _ => Raise AttributeError
  end.

(** [key in row] *)
Definition has_key (key : string) (r : row) : bool :=
  match r !! key with
  | Some _ => true
  | None => false
  end.

(** [row[key]] *)
Definition getitem (r : row) (key : string) : res value :=
  match r !! key with
  | Some v => Ok v
  | None => Raise KeyError
  end.

(** [row.get(key, '')] *)
Definition get_or_empty (r : row) (key : string) : value :=
  match r !! key with
  | Some v => v
  | None => VStr ""
  end.

(** [l.index(x)] *)
Fixpoint index (l : list string) (x : string) : res nat :=
  match l with
  | [] => Raise ValueError
  | y :: rest => if String.eqb y x then Ok 0%nat else n ← index rest x; Ok (S n)
  end.

(** ** The rank hierarchy *)

Definition levels : list string :=
  ["Kingdom"; "Phylum"; "Class"; "Order"; "Family"; "Genus"; "Species"].

(** The literal [['Phylum', ..., 'Species']] of [get_best_identification]. *)
Definition sub_levels : list string :=
  ["Phylum"; "Class"; "Order"; "Family"; "Genus"; "Species"].

(** ** get_taxonomy_level *)

(** The test of the loop body: [level in row and row[level] and
    pd.notna(row[level]) and row[level] != '' and row[level] != 'no-match']. *)
Definition level_filled (r : row) (level : string) : bool :=
  match r !! level with
  | Some v => truthy v && notna v && py_ne v (VStr "") && py_ne v (VStr "no-match")
  | None => false
  end.

(** [for i, level in enumerate(reversed(levels))], from position [i] on. *)
Fixpoint taxonomy_level_scan (r : row) (i : nat) (ls : list string) : nat :=
  match ls with
  | [] => 0
  | level :: rest =>
      if level_filled r level then 7 - i else taxonomy_level_scan r (S i) rest
  end.

Definition get_taxonomy_level (r : row) : nat :=
  taxonomy_level_scan r 0 (rev levels).

(** ** find_common_level *)

(** The triple [(common_level, midori_value, bold_value)]. *)
Definition found : Type := option string * option value * option value.

(** What one pass through a loop body ends in: the next iteration with
    the updated locals, or a [return]. *)
Inductive flow : Type :=
  | Continue (st : found)
  | Return (r : found).

(** The condition of lines 51-52 on the two cells. *)
Definition both_present (mv bv : value) : bool :=
  notna mv && py_ne mv (VStr "") && py_ne mv (VStr "no-match") &&
  notna bv && py_ne bv (VStr "") && py_ne bv (VStr "no-match").

Definition find_body (midori_row bold_row : row) (st : found) (level : string)
  : res flow :=
  let '(common_level, midori_value, bold_value) := st in
  if String.eqb level "Kingdom" && negb (has_key level bold_row) then
    Ok (Continue st)
  else
    match midori_row !! level, bold_row !! level with
    | Some mv, Some bv =>
        if both_present mv bv then
          ml ← lower mv;
          bl ← lower bv;
          if String.eqb ml bl then
            Ok (Continue (Some level, Some mv, Some bv))
          else if String.eqb level "Phylum" then
            Ok (Return (Some "Phylum", Some mv, Some bv))
          else
            idx ← index levels level;
            let previous_idx := (Z.of_nat idx - 1)%Z in
            if (0 <=? previous_idx)%Z then
              match levels !! Z.to_nat previous_idx with
              | Some previous_level =>
                  match midori_row !! previous_level, bold_row !! previous_level with
                  | Some pm, Some pb =>
                      Ok (Return (Some previous_level, Some pm, Some pb))
                  | _, _ => Ok (Return (None, None, None))
                  end
              | None => Raise IndexError
              end
            else Ok (Return (None, None, None))
        else Ok (Continue (common_level, Some mv, Some bv))
    | _, _ => Ok (Continue st)
    end.

(** The [for] loop over the remaining levels [ls]; when it runs out the
    function returns its three locals (line 73). *)
Fixpoint find_loop (midori_row bold_row : row) (ls : list string) (st : found)
  : res found :=
  match ls with
  | [] => Ok st
  | level :: rest =>
      match find_body midori_row bold_row st level with
      | Ok (Continue st') => find_loop midori_row bold_row rest st'
      | Ok (Return r) => Ok r
      | Raise e => Raise e
      end
  end.

Definition find_common_level (midori_row bold_row : row) : res found :=
  find_loop midori_row bold_row (rev levels) (None, None, None).

(** ** get_best_identification *)

(** The generator of lines 87-91 (and 93-97): over the levels of
    [sub_levels] that the row has, is every cell ['no-match'], [''] or NaN. *)
Definition all_no_match (r : row) : bool :=
  forallb
    (fun level =>
       match r !! level with
       | Some v => py_eq v (VStr "no-match") || py_eq v (VStr "") || isna v
       | None => false
       end)
    (filter (fun level => has_key level r = true) sub_levels).

(** [for level in ls: if level in src: result[level] = src[level]] *)
Definition copy_levels (src : row) (ls : list string) (result : row) : row :=
  foldl
    (fun acc level =>
       match src !! level with
       | Some v => <[level := v]> acc
       | None => acc
       end)
    result ls.

(** Lines 130-132 and 185-187: Kingdom is taken from MIDORI when MIDORI
    has a usable one. *)
Definition kingdom_from_midori (midori_row : row) (result : row) : row :=
  match midori_row !! "Kingdom" with
  | Some k =>
      if notna k && py_ne k (VStr "") && py_ne k (VStr "no-match")
      then <["Kingdom" := k]> result
      else result
  | None => result
  end.

(** The five [MIDORI_*] columns, from the row or empty. *)
Definition midori_columns (midori_row : row) (result : row) : row :=
  <["MIDORI_Status" := get_or_empty midori_row "Status"]>
  (<["MIDORI_Ambigous_taxa" := get_or_empty midori_row "Ambigous taxa"]>
  (<["MIDORI_Flag" := get_or_empty midori_row "Flag"]>
  (<["MIDORI_evalue" := get_or_empty midori_row "evalue"]>
  (<["MIDORI_Similarity" := get_or_empty midori_row "Similarity"]> result)))).

Definition midori_columns_empty (result : row) : row :=
  <["MIDORI_Status" := VStr ""]>
  (<["MIDORI_Ambigous_taxa" := VStr ""]>
  (<["MIDORI_Flag" := VStr ""]>
  (<["MIDORI_evalue" := VStr ""]>
  (<["MIDORI_Similarity" := VStr ""]> result)))).

(** The six [BOLD_*] columns, from the row or empty. *)
Definition bold_columns (bold_row : row) (result : row) : row :=
  <["BOLD_flags" := get_or_empty bold_row "flags"]>
  (<["BOLD_BIN" := get_or_empty bold_row "BIN"]>
  (<["BOLD_selected_level" := get_or_empty bold_row "selected_level"]>
  (<["BOLD_records" := get_or_empty bold_row "records"]>
  (<["BOLD_status" := get_or_empty bold_row "status"]>
  (<["BOLD_pct_identity" := get_or_empty bold_row "pct_identity"]> result))))).

Definition bold_columns_empty (result : row) : row :=
  <["BOLD_flags" := VStr ""]>
  (<["BOLD_BIN" := VStr ""]>
  (<["BOLD_selected_level" := VStr ""]>
  (<["BOLD_records" := VStr ""]>
  (<["BOLD_status" := VStr ""]>
  (<["BOLD_pct_identity" := VStr ""]> result))))).

(** Lines 99-123: the MIDORI-only record. *)
Definition use_midori (midori_row : row) : row :=
  bold_columns_empty
    (midori_columns midori_row
       (<["ID_source" := VStr "MIDORI"]> (copy_levels midori_row levels ∅))).

(** Lines 125-154: the BOLD-only record. *)
Definition use_bold (midori_row bold_row : row) : row :=
  bold_columns bold_row
    (midori_columns_empty
       (<["ID_source" := VStr "BOLD"]>
          (copy_levels bold_row sub_levels (kingdom_from_midori midori_row ∅)))).

(** Lines 162-171: the first level, from Kingdom down, that both rows
    fill with the same text; the loop stops there ([break]). *)
Fixpoint first_common (midori_row bold_row : row) (ls : list string) (st : found)
  : res found :=
  match ls with
  | [] => Ok st
  | level :: rest =>
      match midori_row !! level, bold_row !! level with
      | Some mv, Some bv =>
          if notna mv && notna bv &&
             py_ne mv (VStr "") && py_ne bv (VStr "") &&
             py_ne mv (VStr "no-match") && py_ne bv (VStr "no-match")
          then
            ml ← lower mv;
            bl ← lower bv;
            if String.eqb ml bl then Ok (Some level, Some mv, Some bv)
            else first_common midori_row bold_row rest st
          else first_common midori_row bold_row rest st
      | _, _ => first_common midori_row bold_row rest st
      end
  end.

(** Lines 157-171: [find_common_level], then the second search when it
    gave no level. *)
Definition common_level_of (midori_row bold_row : row) : res found :=
  st ← find_common_level midori_row bold_row;
  match st.1.1 with
  | None => first_common midori_row bold_row levels st
  | Some _ => Ok st
  end.

(** Lines 176-191: copy the levels of the row that resolves deeper; a
    tie goes to BOLD. *)
Definition copy_best (midori_row bold_row : row) : row * string :=
  if (get_taxonomy_level bold_row <? get_taxonomy_level midori_row)%nat then
    (copy_levels midori_row levels ∅, "MIDORI")
  else
    (copy_levels bold_row sub_levels (kingdom_from_midori midori_row ∅), "BOLD").

(** [if common_level], on [None] or a string. *)
Definition truthy_level (common_level : option string) : bool :=
  match common_level with
  | Some s => negb (String.eqb s "")
  | None => false
  end.

(** Lines 200-202: [for i in range(common_index + 1, len(levels)):
    if levels[i] in result: result[levels[i]] = ''] *)
Definition clear_after (common_index : nat) (result : row) : row :=
  foldl
    (fun acc level => if has_key level acc then <[level := VStr ""]> acc else acc)
    result (drop (S common_index) levels).

(** Lines 194-202. *)
Definition truncate (midori_row bold_row : row) (st : found) (result : row)
  : res row :=
  let '(common_level, midori_value, bold_value) := st in
  if truthy_level common_level &&
     (get_taxonomy_level midori_row =? get_taxonomy_level bold_row)%nat &&
     py_ne_opt midori_value bold_value
  then
    match common_level with
    | Some l => common_index ← index levels l; Ok (clear_after common_index result)
    | None => Ok result
    end
  else Ok result.

Definition get_best_identification (midori_row bold_row : row) : res row :=
  let bold_no_match := all_no_match bold_row in
  let midori_no_match := all_no_match midori_row in
  if bold_no_match && negb midori_no_match then Ok (use_midori midori_row)
  else if midori_no_match && negb bold_no_match then Ok (use_bold midori_row bold_row)
  else
    st ← common_level_of midori_row bold_row;
    let '(result, source) := copy_best midori_row bold_row in
    result ← truncate midori_row bold_row st result;
    Ok (bold_columns bold_row
          (midori_columns midori_row (<["ID_source" := VStr source]> result))).

(** ** The row loop of main *)

(** A table is the list of its rows, in row order. *)
Abbreviation table := (list row).

(** The elementwise [==] of a column with a scalar: a missing value
    matches nothing. *)
Definition series_eq (a b : value) : bool := py_eq a b.

(** [bold_df[bold_df['unique ID'] == unique_id]] *)
Fixpoint select_id (bold_df : table) (unique_id : value) : res table :=
  match bold_df with
  | [] => Ok []
  | r :: rest =>
      v ← getitem r "unique ID";
      matches ← select_id rest unique_id;
      Ok (if series_eq v unique_id then r :: matches else matches)
  end.

(** Lines 260-279, the record appended for one MIDORI row. *)
Definition main_body (bold_df : table) (midori_row : row) : res row :=
  unique_id ← getitem midori_row "unique ID";
  bold_match ← select_id bold_df unique_id;
  match bold_match with
  | bold_row :: _ =>
      best_id ← get_best_identification midori_row bold_row;
      Ok (<["unique ID" := unique_id]> best_id)
  | [] => Ok (<["ID_source" := VStr "MIDORI"]> midori_row)
  end.

(** Lines 259-279: [combined_results] after the loop over the rows of
    [midori_df] still to come. *)
Fixpoint main_loop (bold_df : table) (midori_df : table) (combined_results : table)
  : res table :=
  match midori_df with
  | [] => Ok combined_results
  | midori_row :: rest =>
      r ← main_body bold_df midori_row;
      main_loop bold_df rest (combined_results ++ [r])
  end.

Definition combine (midori_df bold_df : table) : res table :=
  main_loop bold_df midori_df [].

(** Lines 290-294: the order of the output columns, from the columns of
    [result_df] in their order. *)
Definition fixed_columns : list string :=
  ["unique ID"; "Kingdom"; "Phylum"; "Class"; "Order"; "Family"; "Genus";
   "Species"; "ID_source"].

Definition column_order (columns : list string) : list string :=
  foldl
    (fun column_order col =>
       if bool_decide (col ∈ column_order) then column_order
       else (column_order ++ [col])%list)
    fixed_columns columns.

(** ** Vocabulary of the specification *)

(** A value is present iff it is non-null, non-empty and not the
    missing marker. *)
Definition present (v : value) : bool :=
  notna v && py_ne v (VStr "") && py_ne v (VStr "no-match").

(** [has_rank]: the source offers the rank at all. *)
Definition offered (r : row) (l : string) : bool := has_key l r.

(** [value_at]: the raw value when it is present. *)
Definition value_at (r : row) (l : string) : option value :=
  match r !! l with
  | Some v => if present v then Some v else None
  | None => None
  end.

(** [is_absent_from]: no rank of [ls] has a present value. *)
Definition is_absent_from (r : row) (ls : list string) : bool :=
  forallb (fun l => bool_decide (value_at r l = None)) ls.

(** A rank of a record is cleared when it carries no present value. *)
Definition cleared (r : row) (l : string) : bool :=
  bool_decide (value_at r l = None).

(** Equality of two texts under case-insensitive comparison. *)
Definition same_text (mv bv : value) : bool :=
  match mv, bv with
  | VStr s, VStr t => String.eqb (lower_string s) (lower_string t)
  | _, _ => false
  end.

Definition is_text (v : value) : bool :=
  match v with
  | VStr _ => true
  | _ => false
  end.

(** Both sources offer the rank with present values that are equal
    under case-insensitive comparison. *)
Definition agree_at (m b : row) (l : string) : bool :=
  match m !! l, b !! l with
  | Some mv, Some bv => present mv && present bv && same_text mv bv
  | _, _ => false
  end.

(** Both sources offer the rank with present texts that are unequal
    under case-insensitive comparison. *)
Definition differ_at (m b : row) (l : string) : bool :=
  match m !! l, b !! l with
  | Some mv, Some bv =>
      present mv && present bv && is_text mv && is_text bv && negb (same_text mv bv)
  | _, _ => false
  end.

(** One source does not offer the rank, or one of the two values is
    not present: nothing to compare. *)
Definition silent_at (m b : row) (l : string) : bool :=
  match m !! l, b !! l with
  | Some mv, Some bv => negb (present mv && present bv)
  | _, _ => true
  end.

(** The two records agree at every rank both offer. *)
Definition agree_where_offered (m b : row) : bool :=
  forallb (fun l => negb (offered m l && offered b l) || agree_at m b l) levels.

(** The rank columns of a row hold text or are empty. *)
Definition textual (r : row) : bool :=
  forallb
    (fun l =>
       match r !! l with
       | Some (VNum _) => false
       | _ => true
       end)
    levels.

(** [rank_before]: the next more general rank, if any. *)
Definition rank_before (l : string) : option string :=
  match index levels l with
  | Ok (S i) => levels !! i
  | _ => None
  end.

(** The ranks strictly more specific than [l], most specific first: the
    part of the walk of [find_common_level] that comes before [l]. *)
Definition walk_before (l : string) : list string :=
  match index levels l with
  | Ok i => rev (drop (S i) levels)
  | Raise _ => []
  end.

(** Where the walk stops on a disagreement at [l]: at Phylum itself,
    otherwise one rank up when both rows have that column. *)
Definition on_disagreement (midori_row bold_row : row) (l : string) : found :=
  if String.eqb l "Phylum" then
    (Some "Phylum", midori_row !! "Phylum", bold_row !! "Phylum")
  else
    match rank_before l with
    | Some p =>
        match midori_row !! p, bold_row !! p with
        | Some pm, Some pb => (Some p, Some pm, Some pb)
        | _, _ => (None, None, None)
        end
    | None => (None, None, None)
    end.

(** The first component of the triple is a rank name or [None]. *)
Definition level_or_none (st : found) : Prop :=
  match st.1.1 with
  | Some l => l ∈ levels
  | None => True
  end.

(** Nothing stops the walk at [l]: the rows agree there or have nothing
    to compare. *)
Definition quiet_at (m b : row) (l : string) : bool :=
  agree_at m b l || silent_at m b l.

(** The function returns the rank one step more general than [l], with
    some pair of values. *)
Definition returns_rank_before (m b : row) (l : string) : Prop :=
  ∃ p vA vB, rank_before l = Some p ∧ find_common_level m b = Ok (Some p, vA, vB).

(** The columns of a consensus record that carry BOLD's diagnostics,
    and those that carry MIDORI's, each with the column it is read from. *)
Definition bold_output_columns : list (string * string) :=
  [("BOLD_pct_identity", "pct_identity"); ("BOLD_status", "status");
   ("BOLD_records", "records"); ("BOLD_selected_level", "selected_level");
   ("BOLD_BIN", "BIN"); ("BOLD_flags", "flags")].

Definition midori_output_columns : list (string * string) :=
  [("MIDORI_Similarity", "Similarity"); ("MIDORI_evalue", "evalue");
   ("MIDORI_Flag", "Flag"); ("MIDORI_Ambigous_taxa", "Ambigous taxa");
   ("MIDORI_Status", "Status")].

(** The seven rank cells of a record, Kingdom first. *)
Definition ranks_of (r : row) : list (option value) :=
  map (fun l => r !! l) levels.

(** The row carries the shared identifier. *)
Definition has_id (r : row) : bool := has_key "unique ID" r.




(** Both sources offer the rank with present values, and one of the
    two values is not text. *)
Definition not_text_at (m b : row) (l : string) : bool :=
  match m !! l, b !! l with
  | Some mv, Some bv =>
      present mv && present bv && negb (is_text mv && is_text bv)
  | _, _ => false
  end.

(** The most general rank at which the two rows agree, and the most
    general rank both rows have a column for. *)
Definition most_general_agreement (m b : row) : option string :=
  List.find (agree_at m b) levels.

Definition most_general_offered (m b : row) : option string :=
  List.find (fun l => offered m l && offered b l) levels.

(** The cell of [r] at an optional rank. *)
Definition cell_at (r : row) (l : option string) : option value :=
  match l with
  | Some l => r !! l
  | None => None
  end.

(** The locals after one pass of the loop of [find_common_level] at a
    rank that does not stop the walk. *)
Definition walk_step (midori_row bold_row : row) (st : found) (l : string)
  : found :=
  (if agree_at midori_row bold_row l then Some l else st.1.1,
   if offered midori_row l && offered bold_row l then midori_row !! l else st.1.2,
   if offered midori_row l && offered bold_row l then bold_row !! l else st.2).

(** The columns every consensus record has besides the ranks. *)
Definition record_columns : list string :=
  "ID_source" :: map fst midori_output_columns ++ map fst bold_output_columns.

(** What lines 177-191 copy at a rank: the cell of the chosen source,
    Kingdom of a BOLD record being MIDORI's present value. *)
Definition copied_cell (m b : row) (source : string) (l : string) : option value :=
  if String.eqb source "MIDORI" then m !! l
  else if String.eqb l "Kingdom" then value_at m "Kingdom" else b !! l.

(** The tag that the comparison of the two depths gives. *)
Definition deeper_source (m b : row) : string :=
  if (get_taxonomy_level b <? get_taxonomy_level m)%nat then "MIDORI" else "BOLD".

(** The twelve assignments that close every record, with whatever
    values they assign. *)
Definition close_record (v1 v2 v3 v4 v5 v6 v7 v8 v9 v10 v11 v12 : value)
    (r : row) : row :=
  <["BOLD_flags" := v12]>
  (<["BOLD_BIN" := v11]>
  (<["BOLD_selected_level" := v10]>
  (<["BOLD_records" := v9]>
  (<["BOLD_status" := v8]>
  (<["BOLD_pct_identity" := v7]>
  (<["MIDORI_Status" := v6]>
  (<["MIDORI_Ambigous_taxa" := v5]>
  (<["MIDORI_Flag" := v4]>
  (<["MIDORI_evalue" := v3]>
  (<["MIDORI_Similarity" := v2]>
  (<["ID_source" := v1]> r))))))))))).

(** No row of table A carries the identifier [u]. *)
Definition id_unused (midori_df : table) (u : value) : bool :=
  forallb
    (fun a =>
       match a !! "unique ID" with
       | Some ua => negb (series_eq u ua)
       | None => true
       end)
    midori_df.

#[global] Instance value_eq_dec : EqDecision value.
Proof. solve_decision. Defined.

(** The columns [get_best_identification] reads in each row. *)
Definition midori_read_columns : list string :=
  (levels ++ map snd midori_output_columns)%list.

Definition bold_read_columns : list string :=
  (levels ++ map snd bold_output_columns)%list.

(** Two rows have the same cells in the columns [cols]. *)
Definition same_cells (cols : list string) (r r' : row) : bool :=
  forallb (fun k => bool_decide (r' !! k = r !! k)) cols.

(** A dict literal. *)
Definition dict (cells : list (string * value)) : row := list_to_map cells.

(** ** Concrete records *)

Module Examples.

(** A specimen both sources resolve to species with the same names;
    BOLD writes the phylum in lower case and has no Kingdom column. *)
Definition aedes_midori : row :=
  dict [("Kingdom", VStr "Animalia"); ("Phylum", VStr "Arthropoda");
        ("Class", VStr "Insecta"); ("Order", VStr "Diptera");
        ("Family", VStr "Culicidae"); ("Genus", VStr "Aedes");
        ("Species", VStr "Aedes aegypti")].

Definition aedes_bold : row :=
  dict [("Phylum", VStr "arthropoda");
        ("Class", VStr "Insecta"); ("Order", VStr "Diptera");
        ("Family", VStr "Culicidae"); ("Genus", VStr "Aedes");
        ("Species", VStr "Aedes aegypti")].

(** The same taxonomy, written in upper case throughout by BOLD. *)
Definition aedes_bold_upper : row :=
  dict [("Phylum", VStr "ARTHROPODA");
        ("Class", VStr "INSECTA"); ("Order", VStr "DIPTERA");
        ("Family", VStr "CULICIDAE"); ("Genus", VStr "AEDES");
        ("Species", VStr "AEDES AEGYPTI")].

(** The scenario of the specification: disagreement at Order, MIDORI
    resolved to Order (depth 4), BOLD to Family (depth 5). *)
Definition scenario_midori : row :=
  dict [("Phylum", VStr "Arthropoda"); ("Class", VStr "Insecta");
        ("Order", VStr "Diptera"); ("Family", VStr "no-match");
        ("Genus", VNaN); ("Species", VNaN)].

Definition scenario_bold : row :=
  dict [("Phylum", VStr "Arthropoda"); ("Class", VStr "Insecta");
        ("Order", VStr "Coleoptera"); ("Family", VStr "Carabidae");
        ("Genus", VNaN); ("Species", VNaN)].

(** Two identifications that part at Phylum, and at Kingdom as well. *)
Definition beetle_midori : row :=
  dict [("Kingdom", VStr "Animalia"); ("Phylum", VStr "Arthropoda");
        ("Class", VStr "Insecta"); ("Order", VNaN); ("Family", VNaN);
        ("Genus", VNaN); ("Species", VNaN)].

Definition fern_bold : row :=
  dict [("Kingdom", VStr "Plantae"); ("Phylum", VStr "Tracheophyta");
        ("Class", VStr "no-match"); ("Order", VNaN); ("Family", VNaN);
        ("Genus", VNaN); ("Species", VNaN)].

(** A BOLD table without a Phylum column, its row disagreeing with
    [beetle_midori] at Class. *)
Definition spider_bold_no_phylum : row :=
  dict [("Class", VStr "Arachnida"); ("Order", VNaN); ("Family", VNaN);
        ("Genus", VNaN); ("Species", VNaN)].

(** Same phylum as [beetle_midori], another name for the kingdom. *)
Definition metazoa_bold : row :=
  dict [("Kingdom", VStr "Metazoa"); ("Phylum", VStr "Arthropoda");
        ("Class", VNaN); ("Order", VNaN); ("Family", VNaN);
        ("Genus", VNaN); ("Species", VNaN)].

(** A BOLD row with no hit, and its diagnostic columns. *)
Definition unmatched_bold : row :=
  dict [("Phylum", VStr "no-match"); ("Class", VStr "no-match");
        ("Order", VStr "no-match"); ("Family", VStr "no-match");
        ("Genus", VStr "no-match"); ("Species", VStr "no-match");
        ("pct_identity", VNum 0); ("status", VStr "no-match")].

(** MIDORI rows with nothing below Kingdom: one names the kingdom, the
    other is empty throughout. *)
Definition kingdom_only_midori : row :=
  dict [("Kingdom", VStr "Animalia"); ("Phylum", VNaN); ("Class", VNaN);
        ("Order", VNaN); ("Family", VNaN); ("Genus", VNaN); ("Species", VNaN)].


(** A BOLD row that parts with [beetle_midori] at Class and below, with
    the same depth and a Kingdom cell of its own. *)
Definition snail_bold : row :=
  dict [("Kingdom", VStr "Metazoa"); ("Phylum", VStr "Mollusca");
        ("Class", VStr "Gastropoda"); ("Order", VNaN); ("Family", VNaN);
        ("Genus", VNaN); ("Species", VNaN)].

(** MIDORI's row for the specimen of [snail_bold], placed in another
    phylum and with an empty Kingdom cell. *)
Definition arthropod_midori : row :=
  dict [("Kingdom", VNaN); ("Phylum", VStr "Arthropoda");
        ("Class", VStr "Insecta"); ("Order", VNaN); ("Family", VNaN);
        ("Genus", VNaN); ("Species", VNaN)].

(** A BOLD row whose Class cell was read as a number. *)
Definition numeric_class_bold : row :=
  dict [("Phylum", VStr "Arthropoda"); ("Class", VNum 7); ("Order", VNaN);
        ("Family", VNaN); ("Genus", VNaN); ("Species", VNaN)].

(** A BOLD row without identification whose Kingdom cell was read as a
    number. *)
Definition numeric_kingdom_bold : row :=
  dict [("Kingdom", VNum 1); ("Phylum", VNaN); ("Class", VNaN); ("Order", VNaN);
        ("Family", VNaN); ("Genus", VNaN); ("Species", VNaN)].

(** BOLD's row for the specimen of [aedes_midori], spelled the same. *)
Definition aedes_bold_same : row :=
  dict [("Phylum", VStr "Arthropoda");
        ("Class", VStr "Insecta"); ("Order", VStr "Diptera");
        ("Family", VStr "Culicidae"); ("Genus", VStr "Aedes");
        ("Species", VStr "Aedes aegypti")].

(** Two small tables: specimen s1 is in both, s2 only in MIDORI's, s9
    only in BOLD's. *)
Definition midori_table : table :=
  [<["unique ID" := VStr "s1"]> aedes_midori;
   <["unique ID" := VStr "s2"]> beetle_midori].



(** A MIDORI row without identifier, and a table where BOLD's Class
    column was read as numbers. *)
Definition nameless_midori : row := <["unique ID" := VNaN]> beetle_midori.

Definition numeric_bold_table : table :=
  [<["unique ID" := VStr "s2"]> numeric_class_bold].

End Examples.

(** ** Properties of the walk of find_common_level *)

Section Walk.

Variables midori_row bold_row : row.

Lemma both_present_split mv bv :
  both_present mv bv = present mv && present bv.
Proof.
  unfold both_present, present.
  destruct (notna mv), (py_ne mv (VStr "")), (py_ne mv (VStr "no-match"));
    reflexivity.
Qed.

Lemma elem_of_levels l :
  l ∈ levels →
  l = "Kingdom" ∨ l = "Phylum" ∨ l = "Class" ∨ l = "Order" ∨
  l = "Family" ∨ l = "Genus" ∨ l = "Species".
Proof.
  unfold levels. rewrite !elem_of_cons, elem_of_nil. tauto.
Qed.

(** A rank with nothing to compare, or with agreement, lets the walk go on. *)
Lemma find_body_quiet st l :
  quiet_at midori_row bold_row l = true →
  ∃ st', find_body midori_row bold_row st l = Ok (Continue st').
Proof.
  intros Hq. destruct st as [[common_level mval] bval].
  unfold find_body, quiet_at, agree_at, silent_at in *.
  destruct (String.eqb l "Kingdom" && negb (has_key l bold_row)); [eauto|].
  destruct (midori_row !! l) as [mv|]; [|eauto].
  destruct (bold_row !! l) as [bv|]; [|eauto].
  rewrite both_present_split.
  destruct (present mv && present bv); simpl in *; [|eauto].
  rewrite orb_false_r in Hq.
  destruct mv, bv; simpl in *; try discriminate.
  rewrite Hq. eauto.
Qed.

Lemma find_loop_quiet ls rest st :
  forallb (quiet_at midori_row bold_row) ls = true →
  ∃ st', find_loop midori_row bold_row (ls ++ rest) st
         = find_loop midori_row bold_row rest st'.
Proof.
  revert st. induction ls as [|l ls IH]; intros st Hq; simpl in *.
  - eauto.
  - apply andb_prop in Hq as [Hl Hls].
    destruct (find_body_quiet st l Hl) as [st' ->].
    apply IH, Hls.
Qed.

Lemma find_body_differ st l :
  l ∈ levels →
  differ_at midori_row bold_row l = true →
  find_body midori_row bold_row st l = Ok (Return (on_disagreement midori_row bold_row l)).
Proof.
  intros Hl Hd. destruct st as [[common_level mval] bval].
  unfold find_body, differ_at, on_disagreement, has_key in *.
  destruct (midori_row !! l) as [mv|] eqn:Hm; [|discriminate].
  destruct (bold_row !! l) as [bv|] eqn:Hb; [|discriminate].
  rewrite both_present_split.
  destruct (present mv && present bv); [|discriminate].
  destruct mv as [|s|], bv as [|t|]; try discriminate.
  simpl in Hd. apply negb_true_iff in Hd. simpl. rewrite Hd.
  apply elem_of_levels in Hl.
  destruct Hl as [->|[->|[->|[->|[->|[->| ->]]]]]]; simpl;
    rewrite ?Hm, ?Hb; simpl; try reflexivity;
    match goal with
    | |- context [midori_row !! ?p] =>
        destruct (midori_row !! p); [destruct (bold_row !! p)|]; reflexivity
    end.
Qed.

Lemma walk_split l :
  l ∈ levels → ∃ rest, rev levels = (walk_before l ++ l :: rest)%list.
Proof.
  intros Hl. apply elem_of_levels in Hl.
  destruct Hl as [->|[->|[->|[->|[->|[->| ->]]]]]]; vm_compute; eauto.
Qed.

(** The walk up to its first disagreement. *)
Lemma find_common_level_first_disagreement l :
  l ∈ levels →
  forallb (quiet_at midori_row bold_row) (walk_before l) = true →
  differ_at midori_row bold_row l = true →
  find_common_level midori_row bold_row = Ok (on_disagreement midori_row bold_row l).
Proof.
  intros Hl Hq Hd. unfold find_common_level.
  destruct (walk_split l Hl) as [rest ->].
  destruct (find_loop_quiet (walk_before l) (l :: rest) (None, None, None) Hq)
    as [st' ->].
  simpl. by rewrite (find_body_differ st' l Hl Hd).
Qed.

End Walk.

(** ** The common level is a rank, and text never raises *)

Ltac res_unfold := unfold mbind, res_bind, mret, res_ret in *; cbv beta iota in *.
Ltac res_simpl := unfold mbind, res_bind, mret, res_ret in *; simpl in *.

Lemma index_levels l :
  l ∈ levels → ∃ i, index levels l = Ok i ∧ levels !! i = Some l.
Proof.
  intros Hl. apply elem_of_levels in Hl.
  destruct Hl as [->|[->|[->|[->|[->|[->| ->]]]]]]; vm_compute; eauto.
Qed.

Lemma textual_lookup r l :
  textual r = true → l ∈ levels → ∀ n, r !! l ≠ Some (VNum n).
Proof.
  unfold textual. rewrite forallb_forall. intros Ht Hl n Hn.
  apply list_elem_of_In in Hl. specialize (Ht l Hl). by rewrite Hn in Ht.
Qed.

Lemma present_text v :
  present v = true → (∀ n, v ≠ VNum n) → ∃ s, v = VStr s.
Proof.
  destruct v as [|s|n]; intros Hp Hn; [discriminate|eauto|by destruct (Hn n)].
Qed.

Section Totality.

Variables midori_row bold_row : row.

Lemma find_body_level st l f :
  l ∈ levels → level_or_none st →
  find_body midori_row bold_row st l = Ok f →
  match f with
  | Continue st' => level_or_none st'
  | Return r => level_or_none r
  end.
Proof.
  intros Hl Hst. destruct st as [[common_level mval] bval].
  unfold find_body.
  destruct (String.eqb l "Kingdom" && negb (has_key l bold_row));
    [by intros [= <-]|].
  destruct (midori_row !! l) as [mv|]; [|by intros [= <-]].
  destruct (bold_row !! l) as [bv|]; [|by intros [= <-]].
  destruct (both_present mv bv); [|by intros [= <-]].
  destruct mv as [|s|], bv as [|t|]; unfold lower; res_unfold;
    try discriminate.
  destruct (String.eqb (lower_string s) (lower_string t)); [by intros [= <-]|].
  destruct (String.eqb l "Phylum").
  { intros [= <-]. unfold level_or_none, levels. simpl.
    rewrite !elem_of_cons. auto. }
  destruct (index_levels l Hl) as (i & -> & _). res_unfold.
  destruct (0 <=? Z.of_nat i - 1)%Z; [|by intros [= <-]].
  destruct (levels !! Z.to_nat (Z.of_nat i - 1)) as [p|] eqn:Hp; [|discriminate].
  destruct (midori_row !! p); [destruct (bold_row !! p)|]; intros [= <-]; try done.
  unfold level_or_none. simpl. eapply list_elem_of_lookup_2, Hp.
Qed.

Lemma find_loop_level ls st r :
  ls ⊆ levels → level_or_none st →
  find_loop midori_row bold_row ls st = Ok r → level_or_none r.
Proof.
  revert st. induction ls as [|l ls IH]; intros st Hls Hst; simpl.
  - by intros [= <-].
  - destruct (find_body midori_row bold_row st l) as [[st'|r']|e] eqn:Hb;
      [| |discriminate].
    + apply IH; [set_solver|].
      apply (find_body_level st l (Continue st')); [set_solver|done..].
    + intros [= <-].
      apply (find_body_level st l (Return r')); [set_solver|done..].
Qed.

Lemma first_common_level ls st r :
  ls ⊆ levels → level_or_none st →
  first_common midori_row bold_row ls st = Ok r → level_or_none r.
Proof.
  revert st. induction ls as [|l ls IH]; intros st Hls Hst; simpl.
  - by intros [= <-].
  - assert (ls ⊆ levels) as Hls' by set_solver.
    assert (l ∈ levels) as Hl by set_solver.
    destruct (midori_row !! l) as [mv|]; [|by apply IH].
    destruct (bold_row !! l) as [bv|]; [|by apply IH].
    destruct (_ && _); [|by apply IH].
    destruct mv as [|s|], bv as [|t|]; unfold lower; res_unfold;
      try discriminate.
    destruct (String.eqb (lower_string s) (lower_string t)); [|by apply IH].
    by intros [= <-].
Qed.

Lemma rev_levels_subseteq : rev levels ⊆ levels.
Proof. intros l Hl. apply list_elem_of_In, in_rev in Hl. by apply list_elem_of_In. Qed.

Lemma common_level_of_level st :
  common_level_of midori_row bold_row = Ok st → level_or_none st.
Proof.
  unfold common_level_of, find_common_level. res_unfold.
  destruct (find_loop midori_row bold_row (rev levels) (None, None, None))
    as [st0|] eqn:Hf; [|discriminate].
  assert (level_or_none st0) as H0.
  { eapply find_loop_level; [apply rev_levels_subseteq| |exact Hf]. exact I. }
  destruct (st0.1.1) eqn:Hc.
  - by intros [= <-].
  - intros Hfc. eapply first_common_level; [| |exact Hfc]; [done|].
    unfold level_or_none. by rewrite Hc.
Qed.

Hypothesis midori_text : textual midori_row = true.
Hypothesis bold_text : textual bold_row = true.

Lemma lower_present l v (r : row) :
  textual r = true → l ∈ levels → r !! l = Some v → present v = true →
  ∃ s, v = VStr s.
Proof.
  intros Ht Hl Hv Hp. apply present_text; [done|].
  intros n ->. by apply (textual_lookup r l Ht Hl n).
Qed.

Lemma find_body_total st l :
  l ∈ levels → ∃ f, find_body midori_row bold_row st l = Ok f.
Proof.
  intros Hl. destruct st as [[common_level mval] bval].
  unfold find_body.
  destruct (String.eqb l "Kingdom" && negb (has_key l bold_row)); [eauto|].
  destruct (midori_row !! l) as [mv|] eqn:Hm; [|eauto].
  destruct (bold_row !! l) as [bv|] eqn:Hb; [|eauto].
  rewrite both_present_split.
  destruct (present mv) eqn:Hpm; [|eauto].
  destruct (present bv) eqn:Hpb; [|eauto]. simpl.
  destruct (lower_present l mv midori_row midori_text Hl Hm Hpm) as [s ->].
  destruct (lower_present l bv bold_row bold_text Hl Hb Hpb) as [t ->].
  res_simpl.
  destruct (String.eqb (lower_string s) (lower_string t)); [eauto|].
  apply elem_of_levels in Hl.
  destruct Hl as [->|[->|[->|[->|[->|[->| ->]]]]]]; simpl; eauto;
    match goal with
    | |- context [midori_row !! ?p] =>
        destruct (midori_row !! p); [destruct (bold_row !! p)|]; eauto
    end.
Qed.

Lemma find_loop_total ls st :
  ls ⊆ levels → ∃ r, find_loop midori_row bold_row ls st = Ok r.
Proof.
  revert st. induction ls as [|l ls IH]; intros st Hls; simpl; [eauto|].
  destruct (find_body_total st l) as [[st'|r] ->]; [set_solver| |eauto].
  apply IH. set_solver.
Qed.

Lemma first_common_total ls st :
  ls ⊆ levels → ∃ r, first_common midori_row bold_row ls st = Ok r.
Proof.
  revert st. induction ls as [|l ls IH]; intros st Hls; simpl; [eauto|].
  assert (ls ⊆ levels) as Hls' by set_solver.
  assert (l ∈ levels) as Hl by set_solver.
  destruct (midori_row !! l) as [mv|] eqn:Hm; [|eauto].
  destruct (bold_row !! l) as [bv|] eqn:Hb; [|eauto].
  destruct (notna mv && notna bv && py_ne mv (VStr "") && py_ne bv (VStr "") &&
            py_ne mv (VStr "no-match") && py_ne bv (VStr "no-match")) eqn:Hp;
    [|eauto].
  assert (present mv = true ∧ present bv = true) as [Hpm Hpb].
  { unfold present.
    destruct (notna mv), (notna bv), (py_ne mv (VStr "")), (py_ne bv (VStr "")),
      (py_ne mv (VStr "no-match")), (py_ne bv (VStr "no-match")); done. }
  destruct (lower_present l mv midori_row midori_text Hl Hm Hpm) as [s ->].
  destruct (lower_present l bv bold_row bold_text Hl Hb Hpb) as [t ->].
  res_simpl.
  destruct (String.eqb (lower_string s) (lower_string t)); eauto.
Qed.

Lemma common_level_of_total :
  ∃ st, common_level_of midori_row bold_row = Ok st.
Proof.
  unfold common_level_of, find_common_level.
  destruct (find_loop_total (rev levels) (None, None, None) rev_levels_subseteq)
    as [st0 ->].
  res_unfold. destruct (st0.1.1); [eauto|]. by apply first_common_total.
Qed.

End Totality.

Lemma truncate_total midori_row bold_row st result :
  level_or_none st → ∃ r, truncate midori_row bold_row st result = Ok r.
Proof.
  destruct st as [[common_level mval] bval]. unfold level_or_none, truncate.
  cbn [fst]. intros Hc.
  destruct (truthy_level common_level && _ && _); [|eauto].
  destruct common_level as [l|]; [|eauto].
  destruct (index_levels l Hc) as (i & -> & _). res_unfold. eauto.
Qed.


(** ** Lookups in the records that get_best_identification builds *)

Lemma lookup_copy_levels src ls acc k :
  copy_levels src ls acc !! k =
  if bool_decide (k ∈ ls) then
    match src !! k with
    | Some v => Some v
    | None => acc !! k
    end
  else acc !! k.
Proof.
  unfold copy_levels. revert acc.
  induction ls as [|l ls IH]; intros acc; simpl; [done|].
  rewrite IH. clear IH.
  destruct (decide (k = l)) as [->|Hne].
  - rewrite (bool_decide_eq_true_2 (l ∈ l :: ls)) by (apply elem_of_cons; by left).
    destruct (src !! l) as [v|] eqn:Hv.
    + rewrite lookup_insert_eq. by case_bool_decide.
    + by case_bool_decide.
  - assert (acc_step : (match src !! l with
                        | Some v => <[l:=v]> acc
                        | None => acc
                        end) !! k = acc !! k).
    { destruct (src !! l); [by rewrite lookup_insert_ne|done]. }
    rewrite acc_step.
    destruct (decide (k ∈ ls)) as [Hin|Hout].
    + rewrite (bool_decide_eq_true_2 (k ∈ l :: ls))
        by (apply elem_of_cons; by right).
      by rewrite (bool_decide_eq_true_2 (k ∈ ls)).
    + rewrite (bool_decide_eq_false_2 (k ∈ l :: ls))
        by (rewrite elem_of_cons; tauto).
      by rewrite (bool_decide_eq_false_2 (k ∈ ls)).
Qed.

Lemma lookup_clear_fold ls (acc : row) k :
  foldl (fun acc level => if has_key level acc then <[level := VStr ""]> acc else acc)
    acc ls !! k =
  if bool_decide (k ∈ ls) then
    match acc !! k with
    | Some _ => Some (VStr "")
    | None => None
    end
  else acc !! k.
Proof.
  revert acc. induction ls as [|l ls IH]; intros acc; simpl; [done|].
  rewrite IH. clear IH. unfold has_key.
  destruct (decide (k = l)) as [->|Hne].
  - rewrite (bool_decide_eq_true_2 (l ∈ l :: ls)) by (apply elem_of_cons; by left).
    destruct (acc !! l) as [v|] eqn:Hv.
    + rewrite lookup_insert_eq. by case_bool_decide.
    + rewrite Hv. by case_bool_decide.
  - assert (acc_step : (match acc !! l with
                        | Some _ => <[l:=VStr ""]> acc
                        | None => acc
                        end) !! k = acc !! k).
    { destruct (acc !! l); [by rewrite lookup_insert_ne|done]. }
    assert ((if match acc !! l with Some _ => true | None => false end
             then <[l:=VStr ""]> acc else acc) !! k = acc !! k) as ->.
    { destruct (acc !! l); [by rewrite lookup_insert_ne|done]. }
    destruct (decide (k ∈ ls)) as [Hin|Hout].
    + rewrite (bool_decide_eq_true_2 (k ∈ l :: ls))
        by (apply elem_of_cons; by right).
      by rewrite (bool_decide_eq_true_2 (k ∈ ls)).
    + rewrite (bool_decide_eq_false_2 (k ∈ l :: ls))
        by (rewrite elem_of_cons; tauto).
      by rewrite (bool_decide_eq_false_2 (k ∈ ls)).
Qed.

(** Lookup after an assignment, with the key test computed. *)
Lemma lookup_insert_eqb (m : row) i j x :
  <[i:=x]> m !! j = if String.eqb i j then Some x else m !! j.
Proof.
  destruct (String.eqb_spec i j) as [->|Hne];
    [apply lookup_insert_eq|by apply lookup_insert_ne].
Qed.

Ltac each_level H :=
  apply elem_of_levels in H;
  destruct H as [->|[->|[->|[->|[->|[->| ->]]]]]].

(** The rank columns are not touched by the source tag and the
    diagnostic columns. *)
Lemma lookup_columns_level midori_row bold_row source (result : row) l :
  l ∈ levels →
  bold_columns bold_row
    (midori_columns midori_row (<["ID_source" := source]> result)) !! l
  = result !! l.
Proof.
  intros Hl. unfold bold_columns, midori_columns.
  each_level Hl; by rewrite !lookup_insert_ne by done.
Qed.

Lemma lookup_columns_source midori_row bold_row source (result : row) :
  bold_columns bold_row
    (midori_columns midori_row (<["ID_source" := source]> result)) !! "ID_source"
  = Some source.
Proof.
  unfold bold_columns, midori_columns.
  rewrite !lookup_insert_ne by done. apply lookup_insert_eq.
Qed.

Lemma lookup_kingdom_from_midori midori_row l :
  kingdom_from_midori midori_row ∅ !! l =
  if String.eqb l "Kingdom" then value_at midori_row "Kingdom" else None.
Proof.
  unfold kingdom_from_midori, value_at, present.
  destruct (String.eqb_spec l "Kingdom") as [->|Hne].
  - destruct (midori_row !! "Kingdom") as [k|]; [|done].
    destruct (notna k && _ && _); [by rewrite lookup_insert_eq|done].
  - destruct (midori_row !! "Kingdom") as [k|]; [|done].
    destruct (notna k && _ && _); [by rewrite lookup_insert_ne|done].
Qed.

(** What the BOLD copy (lines 183-191) holds at each rank. *)
Lemma lookup_copy_bold midori_row bold_row l :
  l ∈ levels →
  copy_levels bold_row sub_levels (kingdom_from_midori midori_row ∅) !! l =
  if String.eqb l "Kingdom" then value_at midori_row "Kingdom" else bold_row !! l.
Proof.
  intros Hl. rewrite lookup_copy_levels, lookup_kingdom_from_midori.
  each_level Hl; simpl; try done; by destruct (bold_row !! _).
Qed.

(** What the MIDORI copy (lines 177-181) holds at each rank. *)
Lemma lookup_copy_midori midori_row l :
  l ∈ levels → copy_levels midori_row levels ∅ !! l = midori_row !! l.
Proof.
  intros Hl. rewrite lookup_copy_levels.
  rewrite bool_decide_eq_true_2 by done.
  by destruct (midori_row !! l).
Qed.

Lemma index_lookup j l : levels !! j = Some l → index levels l = Ok j.
Proof.
  intros Hj.
  destruct j as [|[|[|[|[|[|[|j]]]]]]]; simpl in Hj; [..|discriminate Hj];
    by injection Hj as <-.
Qed.

Lemma level_after i j l cl :
  levels !! i = Some l → levels !! j = Some cl →
  bool_decide (l ∈ drop (S j) levels) = bool_decide (j < i).
Proof.
  intros Hi Hj.
  destruct i as [|[|[|[|[|[|[|i]]]]]]]; simpl in Hi; [..|discriminate Hi];
    injection Hi as <-;
    (destruct j as [|[|[|[|[|[|[|j]]]]]]]; simpl in Hj; [..|discriminate Hj]);
    reflexivity.
Qed.

Lemma truthy_level_levels l : l ∈ levels → truthy_level (Some l) = true.
Proof. intros Hl. by each_level Hl. Qed.

Lemma no_match_cell_absent v :
  py_eq v (VStr "no-match") || py_eq v (VStr "") || isna v = negb (present v).
Proof.
  destruct v as [|s|n]; try done.
  unfold present, py_ne. simpl.
  by destruct (String.eqb s "no-match"), (String.eqb s "").
Qed.

(** The test of lines 87-97 is [is_absent_from] over Phylum..Species. *)
Lemma all_no_match_absent r : all_no_match r = is_absent_from r sub_levels.
Proof.
  unfold all_no_match, is_absent_from. generalize sub_levels. intros ls.
  induction ls as [|l ls IH]; [done|].
  rewrite filter_cons. simpl. rewrite <- IH. clear IH.
  unfold has_key, value_at.
  destruct (r !! l) as [v|] eqn:Hv; [|done].
  rewrite decide_True by done. simpl. rewrite Hv, no_match_cell_absent.
  by destruct (present v).
Qed.

Lemma index_elem ls l i : index ls l = Ok i → l ∈ ls.
Proof.
  revert i. induction ls as [|y ls IH]; intros i; simpl; [discriminate|].
  destruct (String.eqb_spec y l) as [->|_].
  - intros _. apply elem_of_cons. by left.
  - res_unfold. destruct (index ls l) as [n|] eqn:Hn; [|discriminate].
    intros _. apply elem_of_cons. right. by eapply IH.
Qed.

Lemma rank_before_level l p : rank_before l = Some p → l ∈ levels.
Proof.
  unfold rank_before. intros Hp.
  destruct (index levels l) as [i|] eqn:Hi; [|discriminate].
  by eapply index_elem.
Qed.

(** * The claims *)

Import Examples.

(** ** The walk of find_common_level *)

(** C5: when the first disagreement the walk meets is at Phylum, the
    function returns Phylum with the two Phylum values; whatever the
    Kingdom columns hold plays no part. *)
Theorem phylum_disagreement_stays_at_phylum (m b : row) :
  forallb (quiet_at m b) (walk_before "Phylum") = true →
  differ_at m b "Phylum" = true →
  ∃ mv bv, m !! "Phylum" = Some mv ∧ b !! "Phylum" = Some bv ∧
    find_common_level m b = Ok (Some "Phylum", Some mv, Some bv).
Proof.
  intros Hq Hd.
  rewrite (find_common_level_first_disagreement m b "Phylum");
    [|by repeat constructor|done..].
  unfold differ_at in Hd. unfold on_disagreement. simpl.
  destruct (m !! "Phylum") as [mv|]; [|discriminate].
  destruct (b !! "Phylum") as [bv|]; [|discriminate]. eauto.
Qed.

Lemma phylum_disagreement_stays_at_phylum_witness :
  differ_at beetle_midori fern_bold "Kingdom" = true ∧
  ∃ mv bv, beetle_midori !! "Phylum" = Some mv ∧ fern_bold !! "Phylum" = Some bv ∧
    find_common_level beetle_midori fern_bold = Ok (Some "Phylum", Some mv, Some bv).
Proof.
  split; [reflexivity|].
  apply (phylum_disagreement_stays_at_phylum beetle_midori fern_bold);
    vm_compute; reflexivity.
Defined.

(** C6, counterexample: BOLD has no Phylum column and disagrees at
    Class; nothing is returned, although Phylum is the rank before. *)
Lemma disagreement_without_previous_column :
  forallb (quiet_at beetle_midori spider_bold_no_phylum) (walk_before "Class") = true ∧
  differ_at beetle_midori spider_bold_no_phylum "Class" = true ∧
  "Class" ≠ "Phylum" ∧
  find_common_level beetle_midori spider_bold_no_phylum = Ok (None, None, None) ∧
  ¬ returns_rank_before beetle_midori spider_bold_no_phylum "Class".
Proof.
  repeat split; try reflexivity; try discriminate.
  intros (p & vA & vB & _ & Hf). vm_compute in Hf. discriminate.
Qed.

(** C6, amended: after a first disagreement at a rank [l] other than
    Phylum that has a more general rank [p], the function returns [p]
    with the raw cells of both rows at [p], uncompared, when both rows
    have the column [p]; when one of them lacks it, nothing is returned. *)
Theorem disagreement_generalises_one_rank (m b : row) (l p : string) :
  l ≠ "Phylum" →
  rank_before l = Some p →
  forallb (quiet_at m b) (walk_before l) = true →
  differ_at m b l = true →
  find_common_level m b =
    Ok (match m !! p, b !! p with
        | Some pm, Some pb => (Some p, Some pm, Some pb)
        | _, _ => (None, None, None)
        end).
Proof.
  intros Hne Hp Hq Hd.
  rewrite (find_common_level_first_disagreement m b l);
    [|by eapply rank_before_level|done..].
  unfold on_disagreement. rewrite Hp.
  by destruct (String.eqb_spec l "Phylum").
Qed.

Lemma disagreement_generalises_one_rank_witness :
  find_common_level scenario_midori scenario_bold =
    Ok (Some "Class", Some (VStr "Insecta"), Some (VStr "Insecta")).
Proof.
  apply (disagreement_generalises_one_rank scenario_midori scenario_bold
           "Order" "Class");
    [discriminate|reflexivity..].
Defined.

(** C10: when the first disagreement the walk meets is at Kingdom,
    nothing is returned, whatever agreement the walk recorded at the
    ranks below. *)
Theorem kingdom_disagreement_returns_none (m b : row) :
  forallb (quiet_at m b) (walk_before "Kingdom") = true →
  differ_at m b "Kingdom" = true →
  find_common_level m b = Ok (None, None, None).
Proof.
  intros Hq Hd.
  by rewrite (find_common_level_first_disagreement m b "Kingdom");
    [|repeat constructor|..].
Qed.

Lemma kingdom_disagreement_returns_none_witness :
  agree_at beetle_midori metazoa_bold "Phylum" = true ∧
  find_common_level beetle_midori metazoa_bold = Ok (None, None, None).
Proof.
  split; [reflexivity|].
  apply (kingdom_disagreement_returns_none beetle_midori metazoa_bold);
    reflexivity.
Defined.

(** ** Records that agree wherever both have a column *)

(** C1 (the code departs from the claim): [aedes_midori] and
    [aedes_bold] agree, case-insensitively, at every rank both offer,
    Species included.  [find_common_level] nevertheless returns Phylum,
    the most general rank of agreement, and [get_best_identification]
    empties Class to Species. *)
Theorem agreeing_records_get_most_general_level :
  agree_where_offered aedes_midori aedes_bold = true ∧
  agree_at aedes_midori aedes_bold "Species" = true ∧
  find_common_level aedes_midori aedes_bold =
    Ok (Some "Phylum", Some (VStr "Arthropoda"), Some (VStr "arthropoda")) ∧
  (.!! "ID_source") <$> get_best_identification aedes_midori aedes_bold =
    Ok (Some (VStr "BOLD")) ∧
  ranks_of <$> get_best_identification aedes_midori aedes_bold =
    Ok [Some (VStr "Animalia"); Some (VStr "arthropoda"); Some (VStr "");
        Some (VStr ""); Some (VStr ""); Some (VStr ""); Some (VStr "")].
Proof. repeat split; vm_compute; reflexivity. Qed.

(** C2 (the code departs from the claim): [aedes_bold_upper] is
    [aedes_midori] in upper case.  The walk takes every rank as agreeing,
    yet the test of line 194 compares the two Phylum cells with [!=],
    finds them different and empties Class to Species. *)
Theorem letter_case_truncates :
  agree_where_offered aedes_midori aedes_bold_upper = true ∧
  find_common_level aedes_midori aedes_bold_upper =
    Ok (Some "Phylum", Some (VStr "Arthropoda"), Some (VStr "ARTHROPODA")) ∧
  get_taxonomy_level aedes_midori = get_taxonomy_level aedes_bold_upper ∧
  ranks_of <$> get_best_identification aedes_midori aedes_bold_upper =
    Ok [Some (VStr "Animalia"); Some (VStr "ARTHROPODA"); Some (VStr "");
        Some (VStr ""); Some (VStr ""); Some (VStr ""); Some (VStr "")] ∧
  (fun result => map (cleared result) sub_levels)
    <$> get_best_identification aedes_midori aedes_bold_upper =
    Ok [false; true; true; true; true; true].
Proof. repeat split; vm_compute; reflexivity. Qed.

(** ** The scenario with a disagreement at Order *)

(** C3, counterexample: on the scenario's two records the depths are 4
    and 5, so the branch of line 194 is not taken and Order and Family
    are not cleared. *)
Lemma scenario_order_not_cleared :
  ¬ ∃ result,
      get_best_identification scenario_midori scenario_bold = Ok result ∧
      cleared result "Order" = true ∧ cleared result "Family" = true ∧
      cleared result "Genus" = true ∧ cleared result "Species" = true.
Proof.
  intros (result & Hr & Ho & _).
  assert ((fun r => cleared r "Order")
            <$> get_best_identification scenario_midori scenario_bold = Ok false)
    as Hc by (vm_compute; reflexivity).
  rewrite Hr in Hc. simpl in Hc. congruence.
Qed.

(** C3, amended: the common rank is Class, BOLD is chosen because
    depth 4 is not above depth 5, and, the depths differing, nothing is
    cleared: the record is BOLD's, Order and Family included. *)
Theorem scenario_keeps_bold_ranks :
  get_taxonomy_level scenario_midori = 4 ∧
  get_taxonomy_level scenario_bold = 5 ∧
  common_level_of scenario_midori scenario_bold =
    Ok (Some "Class", Some (VStr "Insecta"), Some (VStr "Insecta")) ∧
  (.!! "ID_source") <$> get_best_identification scenario_midori scenario_bold =
    Ok (Some (VStr "BOLD")) ∧
  ranks_of <$> get_best_identification scenario_midori scenario_bold =
    Ok [None; Some (VStr "Arthropoda"); Some (VStr "Insecta");
        Some (VStr "Coleoptera"); Some (VStr "Carabidae"); Some VNaN; Some VNaN].
Proof. repeat split; vm_compute; reflexivity. Qed.

(** ** One source without any identification *)

(** C7: when BOLD has no present value from Phylum to Species and MIDORI
    has one, the record is tagged MIDORI, has MIDORI's cell at every rank
    MIDORI offers (and no cell elsewhere), an empty string in each of the
    six BOLD columns, and MIDORI's five diagnostic cells. *)
Theorem bold_absent_uses_midori (m b : row) :
  is_absent_from b sub_levels = true →
  is_absent_from m sub_levels = false →
  ∃ result,
    get_best_identification m b = Ok result ∧
    result !! "ID_source" = Some (VStr "MIDORI") ∧
    (∀ l, l ∈ levels → result !! l = m !! l) ∧
    Forall (fun c => result !! c.1 = Some (VStr "")) bold_output_columns ∧
    Forall (fun c => result !! c.1 = Some (get_or_empty m c.2)) midori_output_columns.
Proof.
  intros Hb Hm. unfold get_best_identification.
  rewrite !all_no_match_absent, Hb, Hm. simpl.
  eexists. split; [reflexivity|].
  unfold use_midori, bold_columns_empty, midori_columns.
  split; [|split; [|split]].
  - rewrite !lookup_insert_ne by done. apply lookup_insert_eq.
  - intros l Hl. rewrite <- (lookup_copy_midori m l Hl).
    each_level Hl; by rewrite !lookup_insert_ne by done.
  - unfold bold_output_columns.
    repeat (apply Forall_cons; split;
            [cbn [fst snd]; rewrite !lookup_insert_eqb; reflexivity|]).
    apply Forall_nil_2.
  - unfold midori_output_columns.
    repeat (apply Forall_cons; split;
            [cbn [fst snd]; rewrite !lookup_insert_eqb; reflexivity|]).
    apply Forall_nil_2.
Qed.

Lemma bold_absent_uses_midori_witness :
  ∃ result,
    get_best_identification aedes_midori unmatched_bold = Ok result ∧
    result !! "ID_source" = Some (VStr "MIDORI") ∧
    (∀ l, l ∈ levels → result !! l = aedes_midori !! l) ∧
    Forall (fun c => result !! c.1 = Some (VStr "")) bold_output_columns ∧
    Forall (fun c => result !! c.1 = Some (get_or_empty aedes_midori c.2))
      midori_output_columns.
Proof.
  apply (bold_absent_uses_midori aedes_midori unmatched_bold);
    vm_compute; reflexivity.
Defined.

(** ** Same depth, different values: the truncation of lines 194-202 *)

(** C4 (the code departs from the claim): equal depths, common rank
    Phylum, different Phylum values, so the record is BOLD's and is
    truncated below Phylum as claimed: Phylum keeps BOLD's [Mollusca] and
    Class to Species are emptied.  But Kingdom, a rank above the common
    one, does not keep the chosen source's [Metazoa]: lines 189-191 copy
    BOLD's cells from Phylum down only, MIDORI has no Kingdom to add at
    lines 185-187, and the record has no Kingdom at all. *)
Theorem truncated_record_loses_bold_kingdom :
  is_absent_from arthropod_midori sub_levels = false ∧
  is_absent_from snail_bold sub_levels = false ∧
  common_level_of arthropod_midori snail_bold =
    Ok (Some "Phylum", Some (VStr "Arthropoda"), Some (VStr "Mollusca")) ∧
  get_taxonomy_level arthropod_midori = 3 ∧
  get_taxonomy_level snail_bold = 3 ∧
  (.!! "ID_source") <$> get_best_identification arthropod_midori snail_bold =
    Ok (Some (VStr "BOLD")) ∧
  ranks_of snail_bold =
    [Some (VStr "Metazoa"); Some (VStr "Mollusca"); Some (VStr "Gastropoda");
     Some VNaN; Some VNaN; Some VNaN; Some VNaN] ∧
  ranks_of <$> get_best_identification arthropod_midori snail_bold =
    Ok [None; Some (VStr "Mollusca"); Some (VStr ""); Some (VStr "");
        Some (VStr ""); Some (VStr ""); Some (VStr "")] ∧
  ¬ ∃ result,
      get_best_identification arthropod_midori snail_bold = Ok result ∧
      result !! "Kingdom" = snail_bold !! "Kingdom".
Proof.
  assert ((.!! "Kingdom") <$> get_best_identification arthropod_midori snail_bold =
          Ok None) as Hk by (vm_compute; reflexivity).
  repeat split; try (vm_compute; reflexivity).
  intros (result & Hr & Hs). rewrite Hr in Hk. simpl in Hk.
  injection Hk as Hk. rewrite Hk in Hs. vm_compute in Hs. discriminate.
Qed.

(** The same with a MIDORI row that names its kingdom: the Kingdom of
    the truncated BOLD record is MIDORI's [Animalia], written at lines
    185-187, and again not BOLD's [Metazoa]. *)
Lemma truncated_record_has_midori_kingdom :
  is_absent_from beetle_midori sub_levels = is_absent_from snail_bold sub_levels ∧
  common_level_of beetle_midori snail_bold =
    Ok (Some "Phylum", Some (VStr "Arthropoda"), Some (VStr "Mollusca")) ∧
  get_taxonomy_level beetle_midori = get_taxonomy_level snail_bold ∧
  (.!! "ID_source") <$> get_best_identification beetle_midori snail_bold =
    Ok (Some (VStr "BOLD")) ∧
  snail_bold !! "Kingdom" = Some (VStr "Metazoa") ∧
  (.!! "Kingdom") <$> get_best_identification beetle_midori snail_bold =
    Ok (Some (VStr "Animalia")) ∧
  ¬ ∃ result,
      get_best_identification beetle_midori snail_bold = Ok result ∧
      result !! "Kingdom" = snail_bold !! "Kingdom".
Proof.
  assert ((.!! "Kingdom") <$> get_best_identification beetle_midori snail_bold =
          Ok (Some (VStr "Animalia"))) as Hk by (vm_compute; reflexivity).
  repeat split; try (vm_compute; reflexivity).
  intros (result & Hr & Hs). rewrite Hr in Hk. simpl in Hk.
  injection Hk as Hk. rewrite Hk in Hs. vm_compute in Hs. discriminate.
Qed.

(** ** Both sources without any identification *)

Section BothAbsent.

Variables midori_row bold_row : row.





End BothAbsent.

Lemma level_filled_absent r l : value_at r l = None → level_filled r l = false.
Proof.
  unfold value_at, level_filled, present.
  destruct (r !! l) as [v|]; [|done].
  destruct (notna v && py_ne v (VStr "") && py_ne v (VStr "no-match")) eqn:Hp;
    [discriminate|].
  intros _. rewrite <- !andb_assoc in *. rewrite Hp. apply andb_false_r.
Qed.







(** ** The row loop of main *)

Section Driver.

Variable bold_df : table.
Hypothesis bold_ids : forallb has_id bold_df = true.
Hypothesis bold_text : forallb textual bold_df = true.






End Driver.




(** * Further properties of the code *)

(** ** get_taxonomy_level *)

(** X1: the level is the position, counted from Kingdom = 1, of the most
    specific rank that is filled. *)
Theorem get_taxonomy_level_most_specific (r : row) (i : nat) (l : string) :
  levels !! i = Some l →
  level_filled r l = true →
  forallb (fun l' => negb (level_filled r l')) (drop (S i) levels) = true →
  get_taxonomy_level r = S i.
Proof.
  intros Hi Hl Hrest. unfold get_taxonomy_level. simpl.
  destruct i as [|[|[|[|[|[|[|i]]]]]]]; simpl in Hi; [..|discriminate Hi];
    injection Hi as <-; simpl in Hrest;
    repeat match type of Hrest with
           | context [level_filled r ?x] =>
               destruct (level_filled r x) eqn:?; simpl in Hrest; try discriminate
           end;
    by rewrite Hl.
Qed.

Lemma get_taxonomy_level_most_specific_witness :
  get_taxonomy_level scenario_midori = 4.
Proof.
  apply (get_taxonomy_level_most_specific scenario_midori 3 "Order");
    vm_compute; reflexivity.
Defined.

(** X2: the level is 0 exactly when no rank is filled, and never above 7. *)
Theorem get_taxonomy_level_zero_iff (r : row) :
  (get_taxonomy_level r = 0 ↔
   forallb (fun l => negb (level_filled r l)) levels = true) ∧
  (get_taxonomy_level r ≤ 7)%nat.
Proof.
  unfold get_taxonomy_level. simpl.
  destruct (level_filled r "Species"), (level_filled r "Genus"),
    (level_filled r "Family"), (level_filled r "Order"),
    (level_filled r "Class"), (level_filled r "Phylum"),
    (level_filled r "Kingdom"); simpl;
    (split; [split; intros; (done || lia)|lia]).
Qed.

(** ** find_common_level *)

Section WalkMore.

Variables midori_row bold_row : row.

Lemma find_body_not_text st l :
  not_text_at midori_row bold_row l = true →
  find_body midori_row bold_row st l = Raise AttributeError.
Proof.
  intros Hn. destruct st as [[c x] y].
  unfold find_body, not_text_at, has_key in *.
  destruct (midori_row !! l) as [mv|]; [|discriminate].
  destruct (bold_row !! l) as [bv|]; [|discriminate].
  rewrite andb_false_r, both_present_split.
  destruct (present mv && present bv); [|discriminate].
  by destruct mv, bv.
Qed.

Lemma find_body_walk_step st l :
  quiet_at midori_row bold_row l = true →
  find_body midori_row bold_row st l
  = Ok (Continue (walk_step midori_row bold_row st l)).
Proof.
  intros Hq. destruct st as [[c x] y].
  unfold find_body, walk_step, quiet_at, agree_at, silent_at, offered, has_key in *.
  cbn [fst snd].
  destruct (bold_row !! l) as [bv|] eqn:Hb.
  - rewrite andb_false_r.
    destruct (midori_row !! l) as [mv|]; [|done].
    rewrite both_present_split.
    destruct (present mv && present bv); simpl in *; [|done].
    rewrite orb_false_r in Hq.
    destruct mv, bv; simpl in *; try discriminate. by rewrite Hq.
  - destruct (String.eqb l "Kingdom"); simpl.
    + by destruct (midori_row !! l).
    + by destruct (midori_row !! l).
Qed.

Lemma find_loop_walk_steps ls st :
  forallb (quiet_at midori_row bold_row) ls = true →
  find_loop midori_row bold_row ls st
  = Ok (foldl (walk_step midori_row bold_row) st ls).
Proof.
  revert st. induction ls as [|l ls IH]; intros st Hq; [done|].
  apply andb_prop in Hq as [Hl Hls]. cbn [find_loop foldl].
  rewrite (find_body_walk_step st l Hl). by apply IH.
Qed.

Lemma foldl_walk_step_rev ls st :
  foldl (walk_step midori_row bold_row) st (rev ls) =
  (match List.find (agree_at midori_row bold_row) ls with
   | Some l => Some l
   | None => st.1.1
   end,
   match List.find (fun l => offered midori_row l && offered bold_row l) ls with
   | Some l => midori_row !! l
   | None => st.1.2
   end,
   match List.find (fun l => offered midori_row l && offered bold_row l) ls with
   | Some l => bold_row !! l
   | None => st.2
   end).
Proof.
  induction ls as [|l ls IH]; [by destruct st as [[c x] y]|].
  cbn [rev List.find]. rewrite foldl_app, IH. cbn [foldl]. unfold walk_step.
  cbn [fst snd].
  by destruct (agree_at midori_row bold_row l),
    (offered midori_row l && offered bold_row l).
Qed.

End WalkMore.

(** X3: a present cell that is not text (a number read from the CSV),
    facing a present cell at the first rank where the walk has something
    to compare, makes [find_common_level] raise AttributeError, whichever
    of the seven ranks it is, Kingdom included; when the rank is one of
    Phylum to Species, [get_best_identification] raises with it. *)
Theorem not_text_raises (m b : row) (l : string) :
  l ∈ levels →
  forallb (quiet_at m b) (walk_before l) = true →
  not_text_at m b l = true →
  find_common_level m b = Raise AttributeError ∧
  (l ∈ sub_levels → get_best_identification m b = Raise AttributeError).
Proof.
  intros Hl' Hq Hn.
  assert (find_common_level m b = Raise AttributeError) as Hf.
  { unfold find_common_level. destruct (walk_split l Hl') as [rest ->].
    destruct (find_loop_quiet m b (walk_before l) (l :: rest) (None, None, None) Hq)
      as [st' ->].
    cbn [find_loop]. by rewrite find_body_not_text. }
  split; [done|]. intros Hl.
  assert (∀ r v, r !! l = Some v → present v = true → all_no_match r = false)
    as Hfilled.
  { intros r v Hv Hp. rewrite all_no_match_absent.
    apply not_true_is_false. unfold is_absent_from. rewrite forallb_forall.
    intros Ha. specialize (Ha l (proj1 (list_elem_of_In _ _) Hl)).
    apply bool_decide_eq_true_1 in Ha. unfold value_at in Ha.
    by rewrite Hv, Hp in Ha. }
  unfold not_text_at in Hn.
  destruct (m !! l) as [mv|] eqn:Hm; [|discriminate].
  destruct (b !! l) as [bv|] eqn:Hb; [|discriminate].
  destruct (present mv) eqn:Hpm; [|discriminate].
  destruct (present bv) eqn:Hpb; [|discriminate].
  unfold get_best_identification, common_level_of.
  rewrite (Hfilled m mv Hm Hpm), (Hfilled b bv Hb Hpb), Hf. reflexivity.
Qed.

Lemma not_text_raises_witness :
  (find_common_level beetle_midori numeric_class_bold = Raise AttributeError ∧
   get_best_identification beetle_midori numeric_class_bold
   = Raise AttributeError) ∧
  find_common_level beetle_midori numeric_kingdom_bold = Raise AttributeError.
Proof.
  split.
  - destruct (not_text_raises beetle_midori numeric_class_bold "Class")
      as [Hf Hg]; [repeat constructor|vm_compute; reflexivity..|].
    split; [exact Hf|apply Hg; repeat constructor].
  - apply (not_text_raises beetle_midori numeric_kingdom_bold "Kingdom");
      [repeat constructor|vm_compute; reflexivity..].
Defined.

(** X4: when no rank stops the walk, [find_common_level] returns the
    most general rank of agreement (none if the rows agree nowhere),
    with the two cells of the most general rank both rows have a column
    for. *)
Theorem no_disagreement_most_general (m b : row) :
  forallb (quiet_at m b) levels = true →
  find_common_level m b =
    Ok (most_general_agreement m b,
        cell_at m (most_general_offered m b),
        cell_at b (most_general_offered m b)).
Proof.
  intros Hq. unfold find_common_level.
  rewrite find_loop_walk_steps, foldl_walk_step_rev.
  - unfold most_general_agreement, most_general_offered, cell_at. cbn [fst snd].
    by destruct (List.find (agree_at m b) levels),
      (List.find (fun l => offered m l && offered b l) levels).
  - apply forallb_forall. intros l Hl. rewrite forallb_forall in Hq.
    by apply Hq, in_rev.
Qed.

Lemma no_disagreement_most_general_witness :
  find_common_level aedes_midori aedes_bold =
    Ok (most_general_agreement aedes_midori aedes_bold,
        cell_at aedes_midori (most_general_offered aedes_midori aedes_bold),
        cell_at aedes_bold (most_general_offered aedes_midori aedes_bold)).
Proof.
  apply (no_disagreement_most_general aedes_midori aedes_bold).
  vm_compute. reflexivity.
Defined.

Lemma first_common_first_agreement (m b : row) ls st :
  textual m = true → textual b = true → ls ⊆ levels →
  first_common m b ls st =
    Ok (match List.find (agree_at m b) ls with
        | Some l => (Some l, m !! l, b !! l)
        | None => st
        end).
Proof.
  intros Hm Hb. induction ls as [|l ls IH]; intros Hls; [done|].
  assert (ls ⊆ levels) as Hls' by set_solver.
  assert (l ∈ levels) as Hl by set_solver.
  cbn [first_common List.find]. unfold agree_at at 1.
  destruct (m !! l) as [mv|] eqn:Hmv; [|by apply IH].
  destruct (b !! l) as [bv|] eqn:Hbv; [|by apply IH].
  assert (notna mv && notna bv && py_ne mv (VStr "") && py_ne bv (VStr "") &&
          py_ne mv (VStr "no-match") && py_ne bv (VStr "no-match")
          = present mv && present bv) as ->.
  { unfold present.
    by destruct (notna mv), (notna bv), (py_ne mv (VStr "")), (py_ne bv (VStr "")),
      (py_ne mv (VStr "no-match")), (py_ne bv (VStr "no-match")). }
  destruct (present mv) eqn:Hpm; [|by apply IH].
  destruct (present bv) eqn:Hpb; [|by apply IH]. cbn [andb].
  destruct (lower_present l mv m Hm Hl Hmv Hpm) as [s ->].
  destruct (lower_present l bv b Hb Hl Hbv Hpb) as [t ->].
  unfold lower, same_text. res_unfold.
  destruct (String.eqb (lower_string s) (lower_string t));
    [by rewrite Hmv, Hbv|by apply IH].
Qed.

(** X5: when [find_common_level] gives no level, the second search of
    [get_best_identification] (lines 160-171) takes the most general
    rank at which the rows agree, with the two cells there; when they
    agree nowhere the triple is left as it was. *)
Theorem fallback_most_general_agreement (m b : row) (x y : option value) :
  textual m = true → textual b = true →
  find_common_level m b = Ok (None, x, y) →
  common_level_of m b =
    Ok (match most_general_agreement m b with
        | Some l => (Some l, m !! l, b !! l)
        | None => (None, x, y)
        end).
Proof.
  intros Hm Hb Hf. unfold common_level_of. rewrite Hf. res_unfold. cbn [fst].
  by apply first_common_first_agreement.
Qed.

Lemma fallback_most_general_agreement_witness :
  common_level_of beetle_midori metazoa_bold =
    Ok (match most_general_agreement beetle_midori metazoa_bold with
        | Some l => (Some l, beetle_midori !! l, metazoa_bold !! l)
        | None => (None, None, None)
        end).
Proof.
  apply (fallback_most_general_agreement beetle_midori metazoa_bold None None);
    vm_compute; reflexivity.
Defined.

Lemma find_loop_ext (m m' b : row) ls st :
  (∀ l st', l ∈ ls → find_body m' b st' l = find_body m b st' l) →
  find_loop m' b ls st = find_loop m b ls st.
Proof.
  revert st. induction ls as [|l ls IH]; intros st Hext; [done|].
  cbn [find_loop]. rewrite Hext by (apply elem_of_cons; by left).
  destruct (find_body m b st l) as [[st'|r]|e]; try done.
  apply IH. intros l' st'' Hl'. apply Hext, elem_of_cons. by right.
Qed.

Lemma find_body_below_kingdom (m m' b : row) st l :
  l ∈ levels →
  (∀ k, k ∈ sub_levels → m' !! k = m !! k) →
  has_key "Kingdom" b = false →
  find_body m' b st l = find_body m b st l.
Proof.
  intros Hl Hagree Hk. destruct st as [[c x] y]. unfold find_body.
  each_level Hl; simpl; rewrite ?Hk; simpl;
    rewrite ?Hagree by (unfold sub_levels; repeat constructor); reflexivity.
Qed.

(** X6: when BOLD has no Kingdom column, MIDORI's Kingdom cell plays no
    part in [find_common_level]: the Kingdom pass is skipped and no
    other pass reads it, a disagreement at Phylum being reported at
    Phylum. *)
Theorem kingdom_unread_without_bold_kingdom (m b : row) (v : value) :
  b !! "Kingdom" = None →
  find_common_level (<["Kingdom" := v]> m) b = find_common_level m b.
Proof.
  intros Hb. unfold find_common_level. apply find_loop_ext.
  intros l st Hl. apply find_body_below_kingdom.
  - by apply list_elem_of_In, in_rev, list_elem_of_In in Hl.
  - intros k Hk. apply lookup_insert_ne. intros <-.
    unfold sub_levels in Hk. rewrite !elem_of_cons, elem_of_nil in Hk.
    by destruct Hk as [?|[?|[?|[?|[?|[?|?]]]]]].
  - unfold has_key. by rewrite Hb.
Qed.

Lemma kingdom_unread_without_bold_kingdom_witness :
  find_common_level (<["Kingdom" := VStr "Plantae"]> aedes_midori) aedes_bold
  = find_common_level aedes_midori aedes_bold.
Proof.
  apply (kingdom_unread_without_bold_kingdom aedes_midori aedes_bold).
  vm_compute. reflexivity.
Defined.

(** ** get_best_identification *)

(** X7: when MIDORI has no present value from Phylum to Species and BOLD
    has one, the record is tagged BOLD, has BOLD's cell at every rank
    from Phylum down, MIDORI's present Kingdom (if any) at Kingdom, an
    empty string in each of the five MIDORI columns, and BOLD's six
    diagnostic cells. *)
Theorem midori_absent_uses_bold (m b : row) :
  is_absent_from m sub_levels = true →
  is_absent_from b sub_levels = false →
  ∃ result,
    get_best_identification m b = Ok result ∧
    result !! "ID_source" = Some (VStr "BOLD") ∧
    (∀ l, l ∈ levels → result !! l = copied_cell m b "BOLD" l) ∧
    Forall (fun c => result !! c.1 = Some (VStr "")) midori_output_columns ∧
    Forall (fun c => result !! c.1 = Some (get_or_empty b c.2)) bold_output_columns.
Proof.
  intros Hm Hb. unfold get_best_identification.
  rewrite !all_no_match_absent, Hb, Hm. cbn [andb negb].
  eexists. split; [reflexivity|].
  unfold use_bold, bold_columns, midori_columns_empty.
  split; [|split; [|split]].
  - rewrite !lookup_insert_ne by done. apply lookup_insert_eq.
  - intros l Hl. unfold copied_cell. cbn [String.eqb Ascii.eqb Bool.eqb].
    rewrite <- (lookup_copy_bold m b l Hl).
    each_level Hl; by rewrite !lookup_insert_ne by done.
  - unfold midori_output_columns.
    repeat (apply Forall_cons; split;
            [cbn [fst snd]; rewrite !lookup_insert_eqb; reflexivity|]).
    apply Forall_nil_2.
  - unfold bold_output_columns.
    repeat (apply Forall_cons; split;
            [cbn [fst snd]; rewrite !lookup_insert_eqb; reflexivity|]).
    apply Forall_nil_2.
Qed.

Lemma midori_absent_uses_bold_witness :
  ∃ result,
    get_best_identification kingdom_only_midori fern_bold = Ok result ∧
    result !! "ID_source" = Some (VStr "BOLD") ∧
    (∀ l, l ∈ levels → result !! l = copied_cell kingdom_only_midori fern_bold "BOLD" l) ∧
    Forall (fun c => result !! c.1 = Some (VStr "")) midori_output_columns ∧
    Forall (fun c => result !! c.1 = Some (get_or_empty fern_bold c.2))
      bold_output_columns.
Proof.
  apply (midori_absent_uses_bold kingdom_only_midori fern_bold);
    vm_compute; reflexivity.
Defined.

(** The depth of a row with nothing from Phylum down is 0 or 1; the
    depth of a row of text with something there is at least 2. *)
Lemma get_taxonomy_level_absent_le r :
  is_absent_from r sub_levels = true → (get_taxonomy_level r ≤ 1)%nat.
Proof.
  unfold is_absent_from. rewrite forallb_forall. intros Ha.
  assert (∀ l, l ∈ sub_levels → level_filled r l = false) as Hf.
  { intros l Hl. apply level_filled_absent.
    by eapply bool_decide_eq_true_1, Ha, list_elem_of_In. }
  unfold get_taxonomy_level. simpl.
  rewrite !Hf by (unfold sub_levels; repeat constructor).
  destruct (level_filled r "Kingdom"); lia.
Qed.

Lemma present_text_filled r l :
  textual r = true → l ∈ levels →
  bool_decide (value_at r l = None) = false → level_filled r l = true.
Proof.
  intros Ht Hl Hv. unfold value_at, level_filled in *.
  destruct (r !! l) as [v|] eqn:Hr; [|done].
  destruct (present v) eqn:Hp; [|done].
  destruct (lower_present l v r Ht Hl Hr Hp) as [s ->].
  unfold present, py_ne, py_eq, truthy, notna in *.
  by destruct (String.eqb s ""), (String.eqb s "no-match").
Qed.

Lemma forallb_false_elem {A} (f : A → bool) (l : list A) :
  forallb f l = false → ∃ x, x ∈ l ∧ f x = false.
Proof.
  induction l as [|a l IH]; simpl; [discriminate|].
  destruct (f a) eqn:Ha; simpl.
  - intros (x & Hx & Hf)%IH. exists x. split; [by apply elem_of_cons; right|done].
  - intros _. exists a. split; [by apply elem_of_cons; left|done].
Qed.

Lemma get_taxonomy_level_present_ge r :
  textual r = true → is_absent_from r sub_levels = false →
  (2 ≤ get_taxonomy_level r)%nat.
Proof.
  intros Ht Ha. unfold is_absent_from in Ha.
  assert (∃ l, l ∈ sub_levels ∧ level_filled r l = true) as (l & Hl & Hf).
  { apply forallb_false_elem in Ha as (l & Hl & Hv).
    exists l. split; [done|]. apply present_text_filled; [done| |done].
    apply elem_of_cons. by right. }
  unfold get_taxonomy_level. simpl.
  unfold sub_levels in Hl. rewrite !elem_of_cons, elem_of_nil in Hl.
  destruct Hl as [->|[->|[->|[->|[->|[->|[]]]]]]];
    destruct (level_filled r "Species"), (level_filled r "Genus"),
      (level_filled r "Family"), (level_filled r "Order"),
      (level_filled r "Class"), (level_filled r "Phylum");
    try discriminate; lia.
Qed.

(** The three ways [get_best_identification] builds its record. *)
Lemma get_best_identification_cases (m b : row) :
  textual m = true → textual b = true →
  ∃ result,
    get_best_identification m b = Ok result ∧
    ((is_absent_from b sub_levels = true ∧ is_absent_from m sub_levels = false ∧
      result = use_midori m) ∨
     (is_absent_from m sub_levels = true ∧ is_absent_from b sub_levels = false ∧
      result = use_bold m b) ∨
     (is_absent_from m sub_levels = is_absent_from b sub_levels ∧
      ∃ st ranks,
        common_level_of m b = Ok st ∧
        truncate m b st (copy_best m b).1 = Ok ranks ∧
        result =
          bold_columns b
            (midori_columns m (<["ID_source" := VStr (copy_best m b).2]> ranks)))).
Proof.
  intros Hm Hb. unfold get_best_identification.
  rewrite !all_no_match_absent.
  destruct (is_absent_from b sub_levels) eqn:Hab,
    (is_absent_from m sub_levels) eqn:Ham; cbn [andb negb];
    try (eexists; split; [reflexivity|]; by auto).
  all: destruct (common_level_of_total m b Hm Hb) as [st Hst]; rewrite Hst;
    res_unfold;
    destruct (truncate_total m b st (copy_best m b).1
                (common_level_of_level m b st Hst)) as [ranks Hr];
    destruct (copy_best m b) as [copied source]; cbn [fst snd] in *;
    rewrite Hr; res_unfold;
    eexists; split; [reflexivity|]; right; right; split; [done|]; eauto.
Qed.

Lemma deeper_source_midori m b :
  textual m = true →
  is_absent_from b sub_levels = true → is_absent_from m sub_levels = false →
  deeper_source m b = "MIDORI".
Proof.
  intros Ht Hb Hm. unfold deeper_source.
  pose proof (get_taxonomy_level_absent_le b Hb).
  pose proof (get_taxonomy_level_present_ge m Ht Hm).
  destruct (Nat.ltb_spec (get_taxonomy_level b) (get_taxonomy_level m)); [done|lia].
Qed.

Lemma deeper_source_bold m b :
  textual b = true →
  is_absent_from m sub_levels = true → is_absent_from b sub_levels = false →
  deeper_source m b = "BOLD".
Proof.
  intros Ht Hm Hb. unfold deeper_source.
  pose proof (get_taxonomy_level_absent_le m Hm).
  pose proof (get_taxonomy_level_present_ge b Ht Hb).
  destruct (Nat.ltb_spec (get_taxonomy_level b) (get_taxonomy_level m)); [lia|done].
Qed.

Lemma copy_best_source m b : (copy_best m b).2 = deeper_source m b.
Proof.
  unfold copy_best, deeper_source.
  by destruct (get_taxonomy_level b <? get_taxonomy_level m)%nat.
Qed.

Lemma copy_best_cell m b l :
  l ∈ levels → (copy_best m b).1 !! l = copied_cell m b (deeper_source m b) l.
Proof.
  intros Hl. unfold copy_best, deeper_source, copied_cell.
  destruct (get_taxonomy_level b <? get_taxonomy_level m)%nat; cbn [fst];
    [by apply lookup_copy_midori|by apply lookup_copy_bold].
Qed.

Lemma use_midori_cell m l : l ∈ levels → use_midori m !! l = m !! l.
Proof.
  intros Hl. unfold use_midori, bold_columns_empty, midori_columns.
  rewrite <- (lookup_copy_midori m l Hl).
  each_level Hl; by rewrite !lookup_insert_ne by done.
Qed.

Lemma use_bold_cell m b l :
  l ∈ levels → use_bold m b !! l = copied_cell m b "BOLD" l.
Proof.
  intros Hl. unfold use_bold, bold_columns, midori_columns_empty, copied_cell.
  cbn [String.eqb Ascii.eqb Bool.eqb].
  rewrite <- (lookup_copy_bold m b l Hl).
  each_level Hl; by rewrite !lookup_insert_ne by done.
Qed.

(** X8: for rows whose rank cells are text or empty the call returns,
    and the tag of the record is decided by the two depths alone:
    MIDORI when MIDORI's depth is greater, BOLD otherwise, ties
    included (the two one-sided branches give the same tag). *)
Theorem source_is_the_deeper (m b : row) :
  textual m = true → textual b = true →
  ∃ result,
    get_best_identification m b = Ok result ∧
    result !! "ID_source" = Some (VStr (deeper_source m b)).
Proof.
  intros Hm Hb.
  destruct (get_best_identification_cases m b Hm Hb)
    as (result & Hr & [(Hab & Ham & Hres)|[(Ham & Hab & Hres)|(_ & st & ranks & _ & _ & Hres)]]);
    exists result; (split; [done|]); subst result.
  - rewrite (deeper_source_midori m b Hm Hab Ham).
    unfold use_midori, bold_columns_empty, midori_columns.
    by rewrite !lookup_insert_eqb.
  - rewrite (deeper_source_bold m b Hb Ham Hab).
    unfold use_bold, bold_columns, midori_columns_empty.
    by rewrite !lookup_insert_eqb.
  - by rewrite lookup_columns_source, copy_best_source.
Qed.

Lemma source_is_the_deeper_witness :
  ∃ result,
    get_best_identification scenario_midori scenario_bold = Ok result ∧
    result !! "ID_source" = Some (VStr (deeper_source scenario_midori scenario_bold)).
Proof.
  apply (source_is_the_deeper scenario_midori scenario_bold);
    vm_compute; reflexivity.
Defined.

(** X9: for rows of text with different depths the ranks of the record
    are those of the deeper source, untouched: MIDORI's cells when
    MIDORI is deeper; otherwise BOLD's from Phylum down with MIDORI's
    present Kingdom. *)
Theorem different_depths_keep_deeper_ranks (m b : row) :
  textual m = true → textual b = true →
  get_taxonomy_level m ≠ get_taxonomy_level b →
  ∃ result,
    get_best_identification m b = Ok result ∧
    ∀ l, l ∈ levels → result !! l = copied_cell m b (deeper_source m b) l.
Proof.
  intros Hm Hb Hne.
  destruct (get_best_identification_cases m b Hm Hb)
    as (result & Hr & [(Hab & Ham & Hres)|[(Ham & Hab & Hres)|(_ & st & ranks & _ & Ht & Hres)]]);
    exists result; (split; [done|]); subst result; intros l Hl.
  - rewrite (deeper_source_midori m b Hm Hab Ham). by apply use_midori_cell.
  - rewrite (deeper_source_bold m b Hb Ham Hab). by apply use_bold_cell.
  - rewrite lookup_columns_level by done.
    destruct st as [[c x] y]. unfold truncate in Ht.
    apply Nat.eqb_neq in Hne. rewrite Hne, andb_false_r in Ht.
    cbn [andb] in Ht. injection Ht as <-. by apply copy_best_cell.
Qed.

Lemma different_depths_keep_deeper_ranks_witness :
  ∃ result,
    get_best_identification scenario_midori scenario_bold = Ok result ∧
    ∀ l, l ∈ levels →
      result !! l =
        copied_cell scenario_midori scenario_bold
          (deeper_source scenario_midori scenario_bold) l.
Proof.
  apply (different_depths_keep_deeper_ranks scenario_midori scenario_bold);
    [vm_compute; reflexivity..|vm_compute; discriminate].
Defined.

Section Columns.

Variables (v1 v2 v3 v4 v5 v6 v7 v8 v9 v10 v11 v12 : value) (r : row).

Lemma closed_other k :
  k ∉ record_columns →
  close_record v1 v2 v3 v4 v5 v6 v7 v8 v9 v10 v11 v12 r !! k = r !! k.
Proof.
  intros Hk. unfold close_record. rewrite !lookup_insert_eqb.
  repeat match goal with
         | |- context [String.eqb ?c k] =>
             destruct (String.eqb_spec c k) as [<-|_];
             [destruct Hk; unfold record_columns; simpl;
              rewrite !elem_of_cons; tauto|]
         end.
  reflexivity.
Qed.

Lemma closed_column k :
  k ∈ record_columns →
  is_Some (close_record v1 v2 v3 v4 v5 v6 v7 v8 v9 v10 v11 v12 r !! k).
Proof.
  unfold record_columns. simpl. rewrite !elem_of_cons, elem_of_nil.
  intros Hk. unfold close_record.
  destruct Hk as [->|[->|[->|[->|[->|[->|[->|[->|[->|[->|[->|[->|[]]]]]]]]]]]]];
    rewrite !lookup_insert_eqb; simpl; eauto.
Qed.

End Columns.

Lemma clear_after_none j (r : row) k : r !! k = None → clear_after j r !! k = None.
Proof.
  intros Hk. unfold clear_after. rewrite lookup_clear_fold, Hk.
  by case_bool_decide.
Qed.

Lemma truncate_none m b st (r r' : row) k :
  truncate m b st r = Ok r' → r !! k = None → r' !! k = None.
Proof.
  destruct st as [[c x] y]. unfold truncate.
  destruct (truthy_level c && _ && _); [|by intros [= <-]].
  destruct c as [l|]; [|by intros [= <-]].
  destruct (index levels l) as [j|]; res_unfold; [|discriminate].
  intros [= <-] Hk. by apply clear_after_none.
Qed.

Lemma copy_best_none m b k : k ∉ levels → (copy_best m b).1 !! k = None.
Proof.
  intros Hk. unfold copy_best.
  assert ((k ∉ sub_levels) ∧ (k ≠ "Kingdom")) as [Hs Hn].
  { split; [intros Hs|intros ->]; apply Hk; apply elem_of_cons; auto. }
  destruct (get_taxonomy_level b <? get_taxonomy_level m)%nat; cbn [fst];
    rewrite lookup_copy_levels, bool_decide_eq_false_2 by done; [done|].
  rewrite lookup_kingdom_from_midori.
  by destruct (String.eqb_spec k "Kingdom").
Qed.

(** X10: a record of rows of text has the twelve closing columns, and
    no column besides them and the seven ranks: no other column of
    either row is carried into a consensus record. *)
Theorem record_schema (m b : row) :
  textual m = true → textual b = true →
  ∃ result,
    get_best_identification m b = Ok result ∧
    (∀ k, k ∈ record_columns → is_Some (result !! k)) ∧
    (∀ k, is_Some (result !! k) → k ∈ levels ∨ k ∈ record_columns).
Proof.
  intros Hm Hb.
  destruct (get_best_identification_cases m b Hm Hb)
    as (result & Hr & Hcases).
  exists result. split; [done|].
  assert (∃ v1 v2 v3 v4 v5 v6 v7 v8 v9 v10 v11 v12 (r : row),
            (∀ k, k ∉ levels → r !! k = None) ∧
            result = close_record v1 v2 v3 v4 v5 v6 v7 v8 v9 v10 v11 v12 r)
    as (v1 & v2 & v3 & v4 & v5 & v6 & v7 & v8 & v9 & v10 & v11 & v12 & r & Hranks & ->).
  { destruct Hcases as [(_ & _ & ->)|[(_ & _ & ->)|(_ & st & ranks & _ & Ht & ->)]].
    - do 13 eexists. split; [|reflexivity].
      intros k Hk. rewrite lookup_copy_levels.
      by rewrite bool_decide_eq_false_2.
    - do 13 eexists. split; [|reflexivity].
      intros k Hk.
      assert ((k ∉ sub_levels) ∧ (k ≠ "Kingdom")) as [Hs Hn].
      { split; [intros Hs|intros ->]; apply Hk; apply elem_of_cons; auto. }
      rewrite lookup_copy_levels, bool_decide_eq_false_2 by done.
      rewrite lookup_kingdom_from_midori.
      by destruct (String.eqb_spec k "Kingdom").
    - do 13 eexists. split; [|reflexivity].
      intros k Hk. eapply truncate_none; [exact Ht|]. by apply copy_best_none. }
  split.
  - intros k Hk. by apply closed_column.
  - intros k Hs. destruct (decide (k ∈ record_columns)) as [|Hk]; [by right|].
    rewrite closed_other in Hs by done. left.
    destruct (decide (k ∈ levels)) as [|Hl]; [done|].
    rewrite Hranks in Hs by done. by destruct Hs.
Qed.

Lemma record_schema_witness :
  ∃ result,
    get_best_identification aedes_midori aedes_bold = Ok result ∧
    (∀ k, k ∈ record_columns → is_Some (result !! k)) ∧
    (∀ k, is_Some (result !! k) → k ∈ levels ∨ k ∈ record_columns).
Proof.
  apply (record_schema aedes_midori aedes_bold); vm_compute; reflexivity.
Defined.

Ltac columns_by_lookup :=
  repeat (apply Forall_cons; split;
          [cbn [fst snd]; rewrite !lookup_insert_eqb; reflexivity|]);
  apply Forall_nil_2.

(** X11: the diagnostic columns of a record of rows of text.  Each
    source's cells are copied (an empty string standing for a column the
    row lacks), whichever source gave the ranks, except that the columns
    of a source with nothing from Phylum to Species are all emptied when
    the other source has something there. *)
Theorem diagnostics_by_branch (m b : row) :
  textual m = true → textual b = true →
  ∃ result,
    get_best_identification m b = Ok result ∧
    Forall
      (fun c =>
         result !! c.1 =
           Some (if is_absent_from m sub_levels && negb (is_absent_from b sub_levels)
                 then VStr "" else get_or_empty m c.2))
      midori_output_columns ∧
    Forall
      (fun c =>
         result !! c.1 =
           Some (if is_absent_from b sub_levels && negb (is_absent_from m sub_levels)
                 then VStr "" else get_or_empty b c.2))
      bold_output_columns.
Proof.
  intros Hm Hb.
  destruct (get_best_identification_cases m b Hm Hb)
    as (result & Hr & [(Hab & Ham & Hres)|[(Ham & Hab & Hres)|(Heq & st & ranks & _ & _ & Hres)]]);
    exists result; (split; [done|]); subst result.
  - rewrite Hab, Ham. cbn [andb negb].
    unfold use_midori, bold_columns_empty, midori_columns,
      midori_output_columns, bold_output_columns.
    split; columns_by_lookup.
  - rewrite Hab, Ham. cbn [andb negb].
    unfold use_bold, bold_columns, midori_columns_empty,
      midori_output_columns, bold_output_columns.
    split; columns_by_lookup.
  - rewrite Heq, andb_negb_r.
    unfold bold_columns, midori_columns, midori_output_columns, bold_output_columns.
    split; columns_by_lookup.
Qed.

Lemma diagnostics_by_branch_witness :
  ∃ result,
    get_best_identification aedes_midori unmatched_bold = Ok result ∧
    Forall
      (fun c =>
         result !! c.1 =
           Some (if is_absent_from aedes_midori sub_levels
                    && negb (is_absent_from unmatched_bold sub_levels)
                 then VStr "" else get_or_empty aedes_midori c.2))
      midori_output_columns ∧
    Forall
      (fun c =>
         result !! c.1 =
           Some (if is_absent_from unmatched_bold sub_levels
                    && negb (is_absent_from aedes_midori sub_levels)
                 then VStr "" else get_or_empty unmatched_bold c.2))
      bold_output_columns.
Proof.
  apply (diagnostics_by_branch aedes_midori unmatched_bold);
    vm_compute; reflexivity.
Defined.

(** X12: rows of text with equal depths whose common level is missing,
    or whose two returned values are equal, give BOLD's record
    untouched: nothing is emptied. *)
Theorem equal_depths_equal_values_keep_ranks (m b : row) c va vb :
  textual m = true → textual b = true →
  get_taxonomy_level m = get_taxonomy_level b →
  common_level_of m b = Ok (c, va, vb) →
  truthy_level c && py_ne_opt va vb = false →
  ∃ result,
    get_best_identification m b = Ok result ∧
    result !! "ID_source" = Some (VStr "BOLD") ∧
    ∀ l, l ∈ levels → result !! l = copied_cell m b "BOLD" l.
Proof.
  intros Hm Hb Hd Hc Hv.
  assert (deeper_source m b = "BOLD") as Hs.
  { unfold deeper_source. by rewrite Hd, Nat.ltb_irrefl. }
  destruct (get_best_identification_cases m b Hm Hb)
    as (result & Hr & [(Hab & Ham & Hres)|[(Ham & Hab & Hres)|(_ & st & ranks & Hst & Ht & Hres)]]);
    exists result; (split; [done|]); subst result.
  - pose proof (get_taxonomy_level_absent_le b Hab).
    pose proof (get_taxonomy_level_present_ge m Hm Ham). lia.
  - pose proof (get_taxonomy_level_absent_le m Ham).
    pose proof (get_taxonomy_level_present_ge b Hb Hab). lia.
  - rewrite Hc in Hst. injection Hst as <-.
    rewrite lookup_columns_source, copy_best_source, Hs. split; [done|].
    intros l Hl. rewrite lookup_columns_level by done.
    unfold truncate in Ht.
    assert (truthy_level c && (get_taxonomy_level m =? get_taxonomy_level b)%nat
            && py_ne_opt va vb = false) as Hcond.
    { rewrite Hd, Nat.eqb_refl, andb_true_r. exact Hv. }
    rewrite Hcond in Ht. injection Ht as <-.
    by rewrite copy_best_cell, Hs.
Qed.

Lemma equal_depths_equal_values_keep_ranks_witness :
  ∃ result,
    get_best_identification aedes_midori aedes_bold_same = Ok result ∧
    result !! "ID_source" = Some (VStr "BOLD") ∧
    ∀ l, l ∈ levels → result !! l = copied_cell aedes_midori aedes_bold_same "BOLD" l.
Proof.
  apply (equal_depths_equal_values_keep_ranks aedes_midori aedes_bold_same
           (Some "Phylum") (Some (VStr "Arthropoda")) (Some (VStr "Arthropoda")));
    vm_compute; reflexivity.
Defined.

(** ** The row loop of main, continued *)

Lemma main_loop_shift bold_df midori_df acc :
  main_loop bold_df midori_df acc =
  (out ← main_loop bold_df midori_df []; Ok (acc ++ out)%list).
Proof.
  revert acc. induction midori_df as [|a rest IH]; intros acc; cbn [main_loop].
  - res_unfold. by rewrite app_nil_r.
  - destruct (main_body bold_df a) as [o|e]; res_unfold; [|done].
    rewrite (IH (acc ++ [o])%list), (IH ([] ++ [o])%list). res_unfold.
    destruct (main_loop bold_df rest []) as [out|e]; [|done].
    by rewrite <- app_assoc.
Qed.

Lemma main_loop_app bold_df midori_df1 midori_df2 acc :
  main_loop bold_df (midori_df1 ++ midori_df2) acc =
  (acc' ← main_loop bold_df midori_df1 acc; main_loop bold_df midori_df2 acc').
Proof.
  revert acc. induction midori_df1 as [|a rest IH]; intros acc;
    cbn [app main_loop]; [done|].
  destruct (main_body bold_df a) as [o|e]; res_unfold; [apply IH|done].
Qed.

(** X13: the rows of table A are processed one by one, independently:
    the output for two tables one after the other is the output for the
    first followed by the output for the second, and the first error met
    in that order is the error of the whole. *)
Theorem combine_app (midori_df1 midori_df2 bold_df : table) :
  combine (midori_df1 ++ midori_df2) bold_df =
  (out1 ← combine midori_df1 bold_df;
   out2 ← combine midori_df2 bold_df;
   Ok (out1 ++ out2)%list).
Proof.
  unfold combine. rewrite main_loop_app. res_unfold.
  destruct (main_loop bold_df midori_df1 []) as [out1|e]; [|done].
  rewrite main_loop_shift. res_unfold.
  by destruct (main_loop bold_df midori_df2 []).
Qed.

(** The loop body uses table B only through the first row that matches. *)
Lemma main_body_head (bold_df bold_df' : table) (a : row) :
  (∀ u, a !! "unique ID" = Some u →
        head <$> select_id bold_df' u = head <$> select_id bold_df u) →
  main_body bold_df' a = main_body bold_df a.
Proof.
  intros Hh. unfold main_body, getitem.
  destruct (a !! "unique ID") as [u|]; [|done]. res_unfold.
  specialize (Hh u eq_refl). unfold fmap, res_fmap in Hh.
  destruct (select_id bold_df' u) as [[|r' l']|e'],
    (select_id bold_df u) as [[|r l]|e]; simplify_eq/=; done.
Qed.

Lemma main_loop_ext (bold_df bold_df' : table) midori_df acc :
  (∀ a, a ∈ midori_df → main_body bold_df' a = main_body bold_df a) →
  main_loop bold_df' midori_df acc = main_loop bold_df midori_df acc.
Proof.
  revert acc. induction midori_df as [|a rest IH]; intros acc Hext; [done|].
  cbn [main_loop]. rewrite Hext by (apply elem_of_cons; by left).
  destruct (main_body bold_df a) as [o|e]; res_unfold; [|done].
  apply IH. intros a' Ha'. apply Hext, elem_of_cons. by right.
Qed.

Lemma select_id_app bold_df1 bold_df2 u :
  select_id (bold_df1 ++ bold_df2) u =
  (l1 ← select_id bold_df1 u; l2 ← select_id bold_df2 u; Ok (l1 ++ l2)%list).
Proof.
  induction bold_df1 as [|r rest IH]; cbn [app select_id].
  - res_unfold. by destruct (select_id bold_df2 u).
  - destruct (getitem r "unique ID") as [v|e]; res_unfold; [|done].
    rewrite IH. res_unfold.
    destruct (select_id rest u) as [l1|e]; [|done].
    destruct (select_id bold_df2 u) as [l2|e]; [|done].
    by destruct (series_eq v u).
Qed.

Lemma py_eq_eq a b : py_eq a b = true → a = b.
Proof.
  destruct a as [|s|n], b as [|t|k]; simpl; try discriminate.
  - by intros ->%String.eqb_eq.
  - by intros ->%Z.eqb_eq.
Qed.

Lemma py_eq_sym a b : py_eq a b = py_eq b a.
Proof.
  destruct a as [|s|n], b as [|t|k]; simpl; try done.
  - apply String.eqb_sym.
  - apply Z.eqb_sym.
Qed.

(** X14: a row of table B whose identifier is carried by no row of
    table A has no influence on the output, wherever it stands in B. *)
Theorem unused_bold_row_ignored (midori_df bold_df1 bold_df2 : table)
    (b' : row) (u : value) :
  b' !! "unique ID" = Some u →
  id_unused midori_df u = true →
  combine midori_df (bold_df1 ++ b' :: bold_df2) =
  combine midori_df (bold_df1 ++ bold_df2).
Proof.
  intros Hu Hun. unfold combine. apply main_loop_ext.
  intros a Ha. apply main_body_head. intros ua Hua.
  unfold id_unused in Hun. rewrite forallb_forall in Hun.
  specialize (Hun a (proj1 (list_elem_of_In _ _) Ha)). rewrite Hua in Hun.
  apply negb_true_iff in Hun.
  rewrite !select_id_app. cbn [select_id]. unfold getitem. rewrite Hu.
  res_unfold. rewrite Hun.
  destruct (select_id bold_df1 ua) as [l1|e]; [|done].
  by destruct (select_id bold_df2 ua) as [l2|e].
Qed.

Lemma unused_bold_row_ignored_witness :
  combine midori_table ([] ++ <["unique ID" := VStr "s9"]> fern_bold
                           :: [<["unique ID" := VStr "s1"]> aedes_bold]) =
  combine midori_table ([] ++ [<["unique ID" := VStr "s1"]> aedes_bold]).
Proof.
  apply (unused_bold_row_ignored midori_table []
           [<["unique ID" := VStr "s1"]> aedes_bold]
           (<["unique ID" := VStr "s9"]> fern_bold) (VStr "s9"));
    vm_compute; reflexivity.
Defined.

(** X15: of the rows of table B with one identifier only the first is
    used: a later row with the identifier of an earlier one has no
    influence on the output. *)
Theorem later_duplicate_ignored (midori_df bold_df1 bold_df2 bold_df3 : table)
    (b1 b2 : row) (u1 u2 : value) :
  b1 !! "unique ID" = Some u1 →
  b2 !! "unique ID" = Some u2 →
  series_eq u1 u2 = true →
  combine midori_df (bold_df1 ++ b1 :: bold_df2 ++ b2 :: bold_df3) =
  combine midori_df (bold_df1 ++ b1 :: bold_df2 ++ bold_df3).
Proof.
  intros H1 H2 He. apply py_eq_eq in He as ->.
  unfold combine. apply main_loop_ext.
  intros a Ha. apply main_body_head. intros ua Hua.
  rewrite !select_id_app. cbn [select_id]. unfold getitem. rewrite H1.
  res_unfold. rewrite !select_id_app. cbn [select_id]. unfold getitem.
  rewrite H2. res_unfold.
  destruct (select_id bold_df1 ua) as [l1|e]; [|done].
  destruct (select_id bold_df2 ua) as [l2|e]; [|done].
  destruct (select_id bold_df3 ua) as [l3|e]; [|done].
  destruct (series_eq u2 ua); cbn [fmap res_fmap]; [|done].
  f_equal. by destruct l1.
Qed.

Lemma later_duplicate_ignored_witness :
  combine midori_table
    ([] ++ <["unique ID" := VStr "s1"]> aedes_bold
        :: [] ++ <["unique ID" := VStr "s1"]> aedes_bold_upper :: []) =
  combine midori_table
    ([] ++ <["unique ID" := VStr "s1"]> aedes_bold :: [] ++ []).
Proof.
  apply (later_duplicate_ignored midori_table [] [] []
           (<["unique ID" := VStr "s1"]> aedes_bold)
           (<["unique ID" := VStr "s1"]> aedes_bold_upper) (VStr "s1") (VStr "s1"));
    vm_compute; reflexivity.
Defined.

Lemma select_id_nan bold_df :
  forallb has_id bold_df = true → select_id bold_df VNaN = Ok [].
Proof.
  induction bold_df as [|r rest IH]; [done|]. cbn [forallb select_id].
  intros [Hr Hrest]%andb_prop. unfold has_id, has_key, getitem in *.
  destruct (r !! "unique ID") as [v|]; [|discriminate]. res_unfold.
  rewrite (IH Hrest). res_unfold. unfold series_eq.
  by destruct v.
Qed.

(** X16: a row of table A whose identifier cell is empty (NaN) is never
    matched, not even by rows of table B whose identifier is empty too:
    it is passed through with the tag MIDORI. *)
Theorem empty_identifier_unmatched (bold_df : table) (a : row) :
  forallb has_id bold_df = true →
  a !! "unique ID" = Some VNaN →
  main_body bold_df a = Ok (<["ID_source" := VStr "MIDORI"]> a).
Proof.
  intros Hb Ha. unfold main_body, getitem. rewrite Ha. res_unfold.
  by rewrite (select_id_nan bold_df Hb).
Qed.

Lemma empty_identifier_unmatched_witness :
  main_body [<["unique ID" := VNaN]> fern_bold] nameless_midori =
  Ok (<["ID_source" := VStr "MIDORI"]> nameless_midori).
Proof.
  apply (empty_identifier_unmatched [<["unique ID" := VNaN]> fern_bold]
           nameless_midori);
    vm_compute; reflexivity.
Defined.

(** X17: an error in the treatment of one row of table A ends the whole
    loop: no record is returned, those of the rows before included. *)
Theorem combine_raises (midori_df bold_df : table) (a : row) (e : exn) :
  a ∈ midori_df →
  main_body bold_df a = Raise e →
  ∃ e', combine midori_df bold_df = Raise e'.
Proof.
  intros Ha He. apply list_elem_of_split in Ha as (before & after & ->).
  rewrite combine_app.
  destruct (combine before bold_df) as [out1|e1]; res_unfold; [|eauto].
  unfold combine. cbn [main_loop]. rewrite He. res_unfold. eauto.
Qed.

Lemma combine_raises_witness :
  ∃ e', combine midori_table numeric_bold_table = Raise e'.
Proof.
  apply (combine_raises midori_table numeric_bold_table
           (<["unique ID" := VStr "s2"]> beetle_midori) AttributeError);
    [apply elem_of_cons; right; apply elem_of_cons; by left
    |vm_compute; reflexivity].
Defined.

(** ** The order of the output columns *)

Lemma filter_iff_on (P Q : string → Prop)
    `{!∀ x, Decision (P x), !∀ x, Decision (Q x)} (l : list string) :
  (∀ x, x ∈ l → P x ↔ Q x) → filter P l = filter Q l.
Proof.
  induction l as [|a l IH]; intros Hiff; [done|].
  rewrite !filter_cons.
  assert (P a ↔ Q a) as Ha by (apply Hiff, elem_of_cons; by left).
  rewrite IH by (intros x Hx; apply Hiff, elem_of_cons; by right).
  destruct (decide (P a)), (decide (Q a)); tauto || done.
Qed.

Lemma column_order_from (acc columns : list string) :
  NoDup columns →
  foldl
    (fun column_order col =>
       if bool_decide (col ∈ column_order) then column_order
       else (column_order ++ [col])%list)
    acc columns
  = (acc ++ filter (fun c => c ∉ acc) columns)%list.
Proof.
  revert acc. induction columns as [|c rest IH]; intros acc Hnd.
  - by rewrite filter_nil, app_nil_r.
  - apply NoDup_cons in Hnd as [Hc Hrest]. cbn [foldl].
    rewrite filter_cons. case_bool_decide as Hin.
    + rewrite decide_False by tauto. by apply IH.
    + rewrite decide_True by done. rewrite IH by done.
      rewrite <- app_assoc. cbn [app]. do 2 f_equal.
      apply filter_iff_on. intros x Hx.
      rewrite elem_of_app, elem_of_cons, elem_of_nil.
      split; [tauto|]. intros Hxa [?|[->|[]]]; [done|]. by apply Hc.
Qed.

(** X18: the output columns are the nine fixed ones, in their fixed
    order, followed by the other columns of the table in the order the
    table has them; no column comes twice. *)
Theorem column_order_fixed_then_rest (columns : list string) :
  NoDup columns →
  column_order columns =
    (fixed_columns ++ filter (fun c => c ∉ fixed_columns) columns)%list ∧
  NoDup (column_order columns).
Proof.
  intros Hnd. unfold column_order. rewrite column_order_from by done.
  split; [done|]. apply NoDup_app. split; [|split].
  - apply (bool_decide_unpack (NoDup fixed_columns)). vm_compute. reflexivity.
  - intros x Hx [Hn _]%list_elem_of_filter. by apply Hn.
  - by apply NoDup_filter.
Qed.

Lemma column_order_fixed_then_rest_witness :
  column_order ["Kingdom"; "Similarity"; "unique ID"; "BOLD_BIN"] =
    (fixed_columns ++
     filter (fun c => c ∉ fixed_columns)
       ["Kingdom"; "Similarity"; "unique ID"; "BOLD_BIN"])%list ∧
  NoDup (column_order ["Kingdom"; "Similarity"; "unique ID"; "BOLD_BIN"]).
Proof.
  apply (column_order_fixed_then_rest
           ["Kingdom"; "Similarity"; "unique ID"; "BOLD_BIN"]).
  apply (bool_decide_unpack
           (NoDup ["Kingdom"; "Similarity"; "unique ID"; "BOLD_BIN"])).
  vm_compute. reflexivity.
Defined.

(** ** The columns get_best_identification reads *)

Section SameCells.

Variables m m' b b' : row.
Hypothesis same_m : ∀ k, k ∈ midori_read_columns → m' !! k = m !! k.
Hypothesis same_b : ∀ k, k ∈ bold_read_columns → b' !! k = b !! k.

Ltac in_columns := apply (bool_decide_unpack _); vm_compute; reflexivity.

Lemma same_m_level l : l ∈ levels → m' !! l = m !! l.
Proof. intros Hl. apply same_m, elem_of_app. by left. Qed.

Lemma same_b_level l : l ∈ levels → b' !! l = b !! l.
Proof. intros Hl. apply same_b, elem_of_app. by left. Qed.

Lemma get_taxonomy_level_same_m : get_taxonomy_level m' = get_taxonomy_level m.
Proof.
  unfold get_taxonomy_level. simpl. unfold level_filled.
  by rewrite !same_m_level by (unfold levels; repeat constructor).
Qed.

Lemma get_taxonomy_level_same_b : get_taxonomy_level b' = get_taxonomy_level b.
Proof.
  unfold get_taxonomy_level. simpl. unfold level_filled.
  by rewrite !same_b_level by (unfold levels; repeat constructor).
Qed.

Lemma all_no_match_same_m : all_no_match m' = all_no_match m.
Proof.
  rewrite !all_no_match_absent. unfold is_absent_from, value_at. simpl.
  by rewrite !same_m_level by (unfold levels; repeat constructor).
Qed.

Lemma all_no_match_same_b : all_no_match b' = all_no_match b.
Proof.
  rewrite !all_no_match_absent. unfold is_absent_from, value_at. simpl.
  by rewrite !same_b_level by (unfold levels; repeat constructor).
Qed.

Lemma find_body_same st l :
  l ∈ levels → find_body m' b' st l = find_body m b st l.
Proof.
  intros Hl. destruct st as [[c x] y]. unfold find_body, has_key.
  each_level Hl; simpl;
    rewrite ?same_m_level, ?same_b_level by (unfold levels; repeat constructor);
    reflexivity.
Qed.

Lemma find_loop_same ls st :
  ls ⊆ levels → find_loop m' b' ls st = find_loop m b ls st.
Proof.
  revert st. induction ls as [|l ls IH]; intros st Hls; [done|].
  cbn [find_loop]. rewrite find_body_same by set_solver.
  destruct (find_body m b st l) as [[st'|r]|e]; try done.
  apply IH. set_solver.
Qed.

Lemma first_common_same ls st :
  ls ⊆ levels → first_common m' b' ls st = first_common m b ls st.
Proof.
  induction ls as [|l ls IH]; intros Hls; [done|].
  cbn [first_common].
  rewrite same_m_level, same_b_level by set_solver.
  rewrite IH by set_solver. reflexivity.
Qed.

Lemma common_level_of_same : common_level_of m' b' = common_level_of m b.
Proof.
  unfold common_level_of, find_common_level.
  rewrite find_loop_same by apply rev_levels_subseteq.
  destruct (find_loop m b (rev levels) (None, None, None)) as [st|e]; [|done].
  res_unfold. destruct (st.1.1); [done|]. by apply first_common_same.
Qed.

Lemma copy_best_same : copy_best m' b' = copy_best m b.
Proof.
  unfold copy_best, copy_levels, kingdom_from_midori.
  rewrite get_taxonomy_level_same_m, get_taxonomy_level_same_b. simpl.
  by rewrite !same_m_level, !same_b_level by (unfold levels; repeat constructor).
Qed.

Lemma truncate_same st r : truncate m' b' st r = truncate m b st r.
Proof.
  unfold truncate.
  by rewrite get_taxonomy_level_same_m, get_taxonomy_level_same_b.
Qed.

Lemma midori_columns_same r : midori_columns m' r = midori_columns m r.
Proof.
  unfold midori_columns, get_or_empty.
  by rewrite !same_m by in_columns.
Qed.

Lemma bold_columns_same r : bold_columns b' r = bold_columns b r.
Proof.
  unfold bold_columns, get_or_empty.
  by rewrite !same_b by in_columns.
Qed.

Lemma get_best_identification_same :
  get_best_identification m' b' = get_best_identification m b.
Proof.
  unfold get_best_identification, use_midori, use_bold.
  rewrite all_no_match_same_m, all_no_match_same_b, common_level_of_same,
    copy_best_same.
  destruct (all_no_match b && negb (all_no_match m)).
  { rewrite midori_columns_same. unfold copy_levels. simpl.
    by rewrite !same_m_level by (unfold levels; repeat constructor). }
  destruct (all_no_match m && negb (all_no_match b)).
  { rewrite bold_columns_same. unfold copy_levels, kingdom_from_midori. simpl.
    by rewrite !same_m_level, !same_b_level by (unfold levels; repeat constructor). }
  destruct (common_level_of m b) as [st|e]; [|done]. res_unfold.
  destruct (copy_best m b) as [copied source]. rewrite truncate_same.
  destruct (truncate m b st copied) as [ranks|e]; [|done]. res_unfold.
  by rewrite midori_columns_same, bold_columns_same.
Qed.

End SameCells.

(** X19: [get_best_identification] reads nothing but the seven rank
    columns of each row, the five diagnostic columns of MIDORI's row and
    the six of BOLD's: rows with the same cells there give the same
    result, record or error, whatever else they hold. *)
Theorem reads_only_its_columns (m m' b b' : row) :
  same_cells midori_read_columns m m' = true →
  same_cells bold_read_columns b b' = true →
  get_best_identification m' b' = get_best_identification m b.
Proof.
  unfold same_cells. rewrite !forallb_forall. intros Hm Hb.
  apply get_best_identification_same.
  - intros k Hk. by eapply bool_decide_eq_true_1, Hm, list_elem_of_In.
  - intros k Hk. by eapply bool_decide_eq_true_1, Hb, list_elem_of_In.
Qed.

Lemma reads_only_its_columns_witness :
  get_best_identification
    (<["unique ID" := VStr "s1"]> aedes_midori)
    (<["sequence" := VStr "ACGT"]> aedes_bold)
  = get_best_identification aedes_midori aedes_bold.
Proof.
  apply (reads_only_its_columns aedes_midori
           (<["unique ID" := VStr "s1"]> aedes_midori) aedes_bold
           (<["sequence" := VStr "ACGT"]> aedes_bold));
    vm_compute; reflexivity.
Defined.

(** ** The truncation of lines 194-202 *)

(** X20: in the general branch, when the two depths are equal, a
    common rank [cl] was found and the two returned values differ, the
    record (BOLD's, by the tie) has every rank more specific than [cl]
    emptied where BOLD has the column and missing where it has not, while
    [cl] and the ranks above it hold what lines 185-191 wrote: BOLD's
    cell from Phylum down, and at Kingdom MIDORI's present value or
    nothing. *)
Theorem same_depth_disagreement_truncates (m b : row) cl va vb :
  is_absent_from m sub_levels = is_absent_from b sub_levels →
  common_level_of m b = Ok (Some cl, va, vb) →
  get_taxonomy_level m = get_taxonomy_level b →
  py_ne_opt va vb = true →
  ∃ result,
    get_best_identification m b = Ok result ∧
    result !! "ID_source" = Some (VStr "BOLD") ∧
    ∀ i j l, levels !! j = Some cl → levels !! i = Some l →
      ((j < i)%nat →
         result !! l = (fun _ => VStr "") <$> b !! l ∧ cleared result l = true) ∧
      ((i ≤ j)%nat →
         result !! l =
           if String.eqb l "Kingdom" then value_at m "Kingdom" else b !! l).
Proof.
  intros Hbranch Hc Hd Hne.
  assert (cl ∈ levels) as Hcl by apply (common_level_of_level m b _ Hc).
  destruct (index_levels cl Hcl) as (j0 & Hidx & Hj0).
  unfold get_best_identification.
  rewrite !all_no_match_absent, Hbranch, andb_negb_r, Hc.
  res_unfold. unfold copy_best, truncate. rewrite Hd, Nat.ltb_irrefl.
  cbv beta iota.
  rewrite (truthy_level_levels cl Hcl), Nat.eqb_refl, Hne. cbn [andb].
  rewrite Hidx. res_unfold.
  eexists. split; [reflexivity|]. split; [apply lookup_columns_source|].
  intros i j l Hj Hi.
  assert (l ∈ levels) as Hl by (eapply list_elem_of_lookup_2, Hi).
  pose proof (index_lookup j cl Hj) as Hj'. rewrite Hidx in Hj'.
  injection Hj' as ->.
  match goal with
  | |- context [bold_columns b ?r] => set (result := bold_columns b r)
  end.
  assert (result !! l =
          if bool_decide (j < i)%nat then (fun _ => VStr "") <$> b !! l
          else if String.eqb l "Kingdom" then value_at m "Kingdom" else b !! l)
    as Hres.
  { unfold result. rewrite lookup_columns_level by done.
    unfold clear_after. rewrite lookup_clear_fold, (level_after i j l cl Hi Hj).
    rewrite lookup_copy_bold by done.
    case_bool_decide as Hij; [|done].
    destruct (String.eqb_spec l "Kingdom") as [->|_]; [|by destruct (b !! l)].
    apply index_lookup in Hi. vm_compute in Hi. injection Hi as <-. lia. }
  rewrite Hres. split; intros Hij.
  - rewrite bool_decide_eq_true_2 by done. split; [reflexivity|].
    unfold cleared, value_at.
    rewrite Hres, (bool_decide_eq_true_2 (j < i)%nat) by done.
    by destruct (b !! l).
  - by rewrite bool_decide_eq_false_2 by lia.
Qed.

Lemma same_depth_disagreement_truncates_witness :
  ∃ result,
    get_best_identification aedes_midori aedes_bold = Ok result ∧
    result !! "ID_source" = Some (VStr "BOLD") ∧
    ∀ i j l, levels !! j = Some "Phylum" → levels !! i = Some l →
      ((j < i)%nat →
         result !! l = (fun _ => VStr "") <$> aedes_bold !! l ∧
         cleared result l = true) ∧
      ((i ≤ j)%nat →
         result !! l =
           if String.eqb l "Kingdom" then value_at aedes_midori "Kingdom"
           else aedes_bold !! l).
Proof.
  apply (same_depth_disagreement_truncates aedes_midori aedes_bold "Phylum"
           (Some (VStr "Arthropoda")) (Some (VStr "arthropoda")));
    vm_compute; reflexivity.
Defined.
